(** * The yt tutorial notebooks: transfer functions, OWLS snapshots, loading data via functions

    The material under verification is three Jupyter notebooks of the yt
    documentation, stored one after the other in
    [doc/source/visualizing/TransferFunctionHelper_Tutorial.ipynb]:

    - the TransferFunctionHelper tutorial        (source lines 1-261),
    - the OWLS examples                          (source lines 262-540),
    - loading data via functions                 (source lines 541-819).

    The development has two layers.

    - [PyAst] and [Material] transcribe the code cells of the notebooks as
      Python syntax trees, statement by statement, each top-level statement
      with the source line it starts on.  [Analysis] runs over these trees:
      call sites in evaluation order, the resolution of callees through the
      import statements, and the trace of calls a notebook makes when its cells
      run from top to bottom.
    - [Showme], [MyFunction] and [GridData] are executable models of the code the
      notebooks define themselves: the NaN screening of [showme], the analytic
      field of [my_function] and the loop that fills [grid_data]. *)

From Stdlib Require Import ZArith QArith List Ascii String Bool Lia Reals Lra.
From Stdlib Require Import SpecFloat.
From stdpp Require Import gmap strings.

Set Warnings "-register-all".

Local Open Scope string_scope.
Local Open Scope Z_scope.
Local Open Scope list_scope.

(** ** Python syntax, as far as the notebooks use it *)

Module PyAst.

Inductive operator := Add | Sub | Mult | Div | Pow.
Inductive unaryop := USub.
Inductive cmpop := Eq | NotEq.

(** Expressions, named after the nodes of Python's [ast] module.  A keyword
    argument [name=value] stands in the argument list of its call as
    [Keyword name value].  Float and imaginary literals keep their text. *)
Inductive expr : Type :=
| Name (id : string)
| Attribute (value : expr) (attr : string)
| Call (func : expr) (args : list expr)
| Keyword (arg : string) (value : expr)
| Subscript (value : expr) (index : list expr)
| Slice (lower upper step : option expr)
| StrLit (s : string)
| IntLit (n : Z)
| FloatLit (text : string)
| ImagLit (text : string)
| BoolLit (b : bool)
| NoneLit
| Tuple (elts : list expr)
| ListLit (elts : list expr)
| Dict (keys : list expr) (values : list expr)
| BinOp (left : expr) (op : operator) (right : expr)
| UnaryOp (op : unaryop) (operand : expr)
| Compare (left : expr) (op : cmpop) (right : expr)
| GeneratorExp (elt : expr) (target : expr) (iter : expr).

(** Statements.  [Magic] is an IPython line magic.  The notebooks use only the
    first eight forms; the others are the statements of Python that branch,
    loop on a condition or handle errors. *)
Inductive stmt : Type :=
| Import (module : string) (asname : option string)
| ImportFrom (module : string) (name : string)
| Magic (text : string)
| Assign (target : expr) (value : expr)
| Expr (value : expr)
| FunctionDef (name : string) (params : list string) (body : list stmt)
| Return (value : expr)
| For (target : expr) (iter : expr) (body : list stmt)
| While (test : expr) (body : list stmt)
| If (test : expr) (body : list stmt) (orelse : list stmt)
| Try (body : list stmt) (handlers : list stmt) (finalbody : list stmt)
| Raise (exc : option expr)
| Assert (test : expr)
| With (context : expr) (body : list stmt)
| ClassDef (name : string) (body : list stmt).

(** A top-level statement of a code cell with the source line it starts on. *)
Record located := At { line : nat; node : stmt }.

Definition cell := list located.

Record notebook := Notebook { title : string; cells : list cell }.

End PyAst.
Import PyAst.

(** ** The code cells of the three notebooks *)

Module Material.

(** Shorthands for the forms the cells repeat. *)
Definition np (a : string) : expr := Attribute (Name "np") a.
Definition plt (a : string) : expr := Attribute (Name "plt") a.
Definition yt (a : string) : expr := Attribute (Name "yt") a.
Definition field (ftype fname : string) : expr := Tuple [StrLit ftype; StrLit fname].
Definition method (obj : expr) (m : string) (args : list expr) : stmt :=
  Expr (Call (Attribute obj m) args).
Definition neg (e : expr) : expr := UnaryOp USub e.
Definition all : expr := Slice None None None.
Definition every (n : Z) : expr := Slice None None (Some (IntLit n)).
Definition ints (l : list Z) : expr := Tuple (List.map IntLit l).

(** *** Notebook 1: the TransferFunctionHelper tutorial *)

(** Lines 29-35: [def showme(im)]. *)
Definition showme_def : stmt :=
  FunctionDef "showme" ["im"]
    [ Assign (Subscript (Name "im") [Compare (Name "im") NotEq (Name "im")]) (FloatLit "0.0");
      Assign (Name "imb") (Call (yt "write_bitmap") [Name "im"; NoneLit]);
      Return (Call (Name "Image") [Name "imb"]) ].

(** Lines 137-145 and 196-204: the [add_layers] call with its keywords. *)
Definition add_layers_8 (helper : string) : stmt :=
  method (Attribute (Name helper) "tf") "add_layers"
    [ IntLit 8;
      Keyword "w" (FloatLit "0.01");
      Keyword "mi" (FloatLit "4.0");
      Keyword "ma" (FloatLit "8.0");
      Keyword "col_bounds" (ListLit [FloatLit "4.0"; FloatLit "8.0"]);
      Keyword "alpha" (Call (np "logspace") [neg (IntLit 1); IntLit 2; IntLit 7]);
      Keyword "colormap" (StrLit "RdBu_r") ].

Definition tfh_tutorial : notebook :=
  Notebook "TransferFunctionHelper tutorial"
  [ [ At 20 (Import "numpy" (Some "np"));
      At 21 (ImportFrom "IPython.core.display" "Image");
      At 23 (Import "yt" None);
      At 24 (ImportFrom "yt.visualization.volume_rendering.transfer_function_helper"
                        "TransferFunctionHelper");
      At 29 showme_def ];
    [ At 53 (Assign (Name "ds") (Call (yt "load") [StrLit "Enzo_64/DD0043/data0043"])) ];
    [ At 71 (Assign (Name "tfh") (Call (Name "TransferFunctionHelper") [Name "ds"])) ];
    [ At 90 (Assign (Name "tfh") (Call (Name "TransferFunctionHelper") [Name "ds"]));
      At 91 (method (Name "tfh") "set_field" [field "gas" "temperature"]);
      At 92 (method (Name "tfh") "set_log" [BoolLit true]);
      At 93 (method (Name "tfh") "set_bounds" []);
      At 94 (method (Name "tfh") "build_transfer_function" []);
      At 95 (method (Attribute (Name "tfh") "tf") "add_layers" [IntLit 5]);
      At 96 (method (Name "tfh") "plot" []) ];
    [ At 114 (method (Name "tfh") "plot" [Keyword "profile_field" (field "gas" "mass")]) ];
    [ At 132 (Assign (Name "tfh") (Call (Name "TransferFunctionHelper") [Name "ds"]));
      At 133 (method (Name "tfh") "set_field" [field "gas" "temperature"]);
      At 134 (method (Name "tfh") "set_bounds" []);
      At 135 (method (Name "tfh") "set_log" [BoolLit true]);
      At 136 (method (Name "tfh") "build_transfer_function" []);
      At 137 (add_layers_8 "tfh");
      At 146 (method (Attribute (Name "tfh") "tf") "map_to_colormap"
                [FloatLit "6.0"; FloatLit "8.0"; Keyword "colormap" (StrLit "Reds")]);
      At 147 (method (Attribute (Name "tfh") "tf") "map_to_colormap"
                [neg (FloatLit "1.0"); FloatLit "6.0"; Keyword "colormap" (StrLit "Blues_r")]);
      At 149 (method (Name "tfh") "plot" [Keyword "profile_field" (field "gas" "mass")]) ];
    [ At 167 (Assign (Tuple [Name "im"; Name "sc"])
                (Call (yt "volume_render") [Name "ds"; ListLit [field "gas" "temperature"]]));
      At 169 (Assign (Name "source") (Call (Attribute (Name "sc") "get_source") []));
      At 170 (method (Name "source") "set_transfer_function" [Attribute (Name "tfh") "tf"]);
      At 171 (Assign (Name "im2") (Call (Attribute (Name "sc") "render") []));
      At 173 (Expr (Call (Name "showme")
                [Subscript (Name "im2") [all; all; Slice None (Some (IntLit 3)) None]])) ];
    [ At 191 (Assign (Name "tfh2") (Call (Name "TransferFunctionHelper") [Name "ds"]));
      At 192 (method (Name "tfh2") "set_field" [field "gas" "temperature"]);
      At 193 (method (Name "tfh2") "set_bounds" []);
      At 194 (method (Name "tfh2") "set_log" [BoolLit true]);
      At 195 (method (Name "tfh2") "build_transfer_function" []);
      At 196 (add_layers_8 "tfh2");
      At 205 (method (Attribute (Name "tfh2") "tf") "map_to_colormap"
                [FloatLit "6.0"; FloatLit "8.0"; Keyword "colormap" (StrLit "Reds");
                 Keyword "scale" (FloatLit "5.0")]);
      At 206 (method (Attribute (Name "tfh2") "tf") "map_to_colormap"
                [neg (FloatLit "1.0"); FloatLit "6.0"; Keyword "colormap" (StrLit "Blues_r");
                 Keyword "scale" (FloatLit "1.0")]);
      At 208 (method (Name "tfh2") "plot" [Keyword "profile_field" (field "gas" "mass")]) ];
    [ At 226 (method (Name "source") "set_transfer_function" [Attribute (Name "tfh2") "tf"]);
      At 227 (Assign (Name "im3") (Call (Attribute (Name "sc") "render") []));
      At 229 (Expr (Call (Name "showme")
                [Subscript (Name "im3") [all; all; Slice None (Some (IntLit 3)) None]])) ] ].

(** *** Notebook 2: the OWLS examples *)

Definition owls_examples : notebook :=
  Notebook "OWLS Examples"
  [ [ At 302 (Magic "matplotlib inline") ];
    [ At 320 (Import "yt" None) ];
    [ At 338 (Assign (Name "ds") (Call (yt "load_sample") [StrLit "snapshot_033"])) ];
    [ At 356 (Assign (Name "ad") (Call (Attribute (Name "ds") "all_data") [])) ];
    [ At 381 (Expr (Attribute (Name "ds") "field_list")) ];
    [ At 392 (Expr (Attribute (Name "ds") "derived_field_list")) ];
    [ At 424 (Expr (Subscript (Name "ad") [field "PartType0" "Coordinates"])) ];
    [ At 435 (Expr (Subscript (Name "ad") [field "PartType4" "IronFromSNIa"])) ];
    [ At 446 (Expr (Subscript (Name "ad") [field "PartType1" "ParticleIDs"])) ];
    [ At 457 (Expr (Subscript (Name "ad") [field "PartType0" "Hydrogen"])) ];
    [ At 482 (Assign (Name "pz")
                (Call (yt "ProjectionPlot") [Name "ds"; StrLit "z"; field "gas" "H_density"])) ];
    [ At 493 (method (Name "pz") "show" []) ];
    [ At 504 (Assign (Name "pz")
                (Call (yt "ProjectionPlot") [Name "ds"; StrLit "z"; field "gas" "H_p0_density"])) ];
    [ At 515 (method (Name "pz") "show" []) ] ].

(** *** Notebook 3: loading data via functions *)

(** [c * np.sin(2 ** (k + i) * inner)], the term the generators of lines 596,
    642-648 and 713-724 sum, with the exponent offset [k] (2 at line 596, 1
    elsewhere) and the argument [inner] of the sine. *)
Definition sine_term (k : Z) (inner : expr) : expr :=
  BinOp (Name "c") Mult
    (Call (np "sin")
       [BinOp (BinOp (IntLit 2) Pow (BinOp (IntLit k) Add (Name "i"))) Mult inner]).

(** [sum(term for i, c in enumerate(coefficients))]. *)
Definition sum_over (coefficients : string) (term : expr) : expr :=
  Call (Name "sum")
    [GeneratorExp term (Tuple [Name "i"; Name "c"])
       (Call (Name "enumerate") [Name coefficients])].

(** [v * np.pi * 2]. *)
Definition turns (v : expr) : expr := BinOp (BinOp v Mult (np "pi")) Mult (IntLit 2).

(** [v * np.pi * 2 + 2**i], the shifted argument of lines 643 and 646. *)
Definition shifted_turns (v : expr) : expr :=
  BinOp (turns v) Add (BinOp (IntLit 2) Pow (Name "i")).

(** [(v - 0.5) ** 2]. *)
Definition offset_squared (v : expr) : expr :=
  BinOp (BinOp v Sub (FloatLit "0.5")) Pow (IntLit 2).

(** [np.exp(-20 * (1.1 * r**2))], lines 650 and 712. *)
Definition gaussian_of_r : expr :=
  Call (np "exp")
    [BinOp (neg (IntLit 20)) Mult
       (BinOp (FloatLit "1.1") Mult (BinOp (Name "r") Pow (IntLit 2)))].

Definition mgrid_axis : expr :=
  Slice (Some (FloatLit "0.0")) (Some (FloatLit "1.0")) (Some (ImagLit "512")).

(** [grid.attr[i]]. *)
Definition grid_at (attr : string) : expr :=
  Subscript (Attribute (Name "grid") attr) [Name "i"].

(** [v.d]: the values of a unit-carrying array. *)
Definition values_of (v : string) : expr := Attribute (Name v) "d".

(** Lines 697-725: [def my_function(grid, field_name)]. *)
Definition my_function_def : stmt :=
  FunctionDef "my_function" ["grid"; "field_name"]
    [ Assign (Tuple [Name "x"; Name "y"; Name "z"])
        (GeneratorExp
           (Call (np "linspace")
              [ BinOp (grid_at "LeftEdge") Add (BinOp (grid_at "dds") Div (IntLit 2));
                BinOp (grid_at "RightEdge") Sub (BinOp (grid_at "dds") Div (IntLit 2));
                grid_at "ActiveDimensions" ])
           (Name "i") (ints [0; 1; 2]));
      Assign (Name "r")
        (Call (np "sqrt")
           [BinOp
              (BinOp
                 (Subscript (offset_squared (values_of "x")) [all; NoneLit; NoneLit]) Add
                 (Subscript (offset_squared (values_of "y")) [NoneLit; all; NoneLit])) Add
              (Subscript (offset_squared (values_of "z")) [NoneLit; NoneLit; all])]);
      Assign (Name "atten") gaussian_of_r;
      Assign (Name "xv") (sum_over "x_coefficients" (sine_term 1 (turns (values_of "x"))));
      Assign (Name "yv") (sum_over "y_coefficients" (sine_term 1 (turns (values_of "y"))));
      Assign (Name "zv") (sum_over "z_coefficients" (sine_term 1 (turns (values_of "z"))));
      Return
        (BinOp (Name "atten") Mult
           (BinOp
              (BinOp (Subscript (Name "xv") [all; NoneLit; NoneLit]) Mult
                     (Subscript (Name "yv") [NoneLit; all; NoneLit])) Mult
              (Subscript (Name "zv") [NoneLit; NoneLit; all]))) ].

(** Lines 746-755: the loop that fills [grid_data]. *)
Definition grid_data_loop : stmt :=
  For (Tuple [Name "level"; Name "le"; Name "re"; Name "dims"]) (Name "_amr_grid_index")
    [ method (Name "grid_data") "append"
        [ Dict
            [StrLit "level"; StrLit "left_edge"; StrLit "right_edge"; StrLit "dimensions";
             StrLit "density"]
            [Name "level"; Name "le"; Name "re"; Name "dims"; Name "my_function"] ] ].

Definition unit_interval : expr := ListLit [FloatLit "0.0"; FloatLit "1.0"].

Definition load_via_functions : notebook :=
  Notebook "Loading Data via Functions"
  [ [ At 571 (Import "matplotlib.pyplot" (Some "plt"));
      At 572 (Import "numpy" (Some "np"));
      At 574 (Import "yt" None) ];
    [ At 594 (Assign (Name "x") (Subscript (np "mgrid") [mgrid_axis]));
      At 595 (Assign (Name "coefficients") (ints [100; 50; 30; 10]));
      At 596 (Assign (Name "y") (sum_over "coefficients" (sine_term 2 (turns (Name "x")))));
      At 597 (Assign (Name "atten")
                (Call (np "exp")
                   [BinOp (neg (IntLit 20)) Mult
                      (BinOp (BinOp (FloatLit "1.1") Mult (BinOp (Name "x") Sub (FloatLit "0.5")))
                         Pow (IntLit 2))])) ];
    [ At 615 (Assign
                (Tuple [Name "fig";
                        Tuple [Tuple [Name "ax1"; Name "ax2"]; Tuple [Name "ax3"; Name "ax4"]]])
                (Call (plt "subplots") [IntLit 2; IntLit 2; Keyword "dpi" (IntLit 150)]));
      At 616 (method (Name "ax4") "plot" [Name "x"; BinOp (Name "y") Mult (Name "atten")]);
      At 617 (method (Name "ax2") "plot" [Name "x"; Name "atten"]);
      At 618 (method (Name "ax3") "plot" [Name "x"; Name "y"]);
      At 619 (method (Name "ax1") "axis" [BoolLit false]) ];
    [ At 637 (Assign (Tuple [Name "x"; Name "y"])
                (Subscript (np "mgrid") [mgrid_axis; mgrid_axis]));
      At 639 (Assign (Name "x_coefficients") (ints [100; 50; 30; 10]));
      At 640 (Assign (Name "y_coefficients") (ints [20; 90; 80; 30]));
      At 642 (Assign (Name "z")
                (BinOp
                   (sum_over "x_coefficients" (sine_term 1 (shifted_turns (Name "x")))) Mult
                   (sum_over "y_coefficients" (sine_term 1 (shifted_turns (Name "y"))))));
      At 649 (Assign (Name "r")
                (Call (np "sqrt")
                   [BinOp (offset_squared (Name "x")) Add (offset_squared (Name "y"))]));
      At 650 (Assign (Name "atten") gaussian_of_r);
      At 652 (Expr (Call (plt "pcolormesh")
                      [Name "x"; Name "y"; BinOp (Name "z") Mult (Name "atten")])) ];
    [ At 670 (Expr (Call (plt "pcolormesh")
                      [ Subscript (Name "x") [every 32; every 32];
                        Subscript (Name "y") [every 32; every 32];
                        Subscript (BinOp (Name "z") Mult (Name "atten")) [every 32; every 32] ])) ];
    [ At 692 (Assign (Name "x_coefficients") (ints [100; 50; 30; 10; 20]));
      At 693 (Assign (Name "y_coefficients") (ints [20; 90; 80; 30; 30]));
      At 694 (Assign (Name "z_coefficients") (ints [50; 10; 90; 40; 40]));
      At 697 my_function_def ];
    [ At 743 (ImportFrom "yt.testing" "_amr_grid_index");
      At 745 (Assign (Name "grid_data") (ListLit []));
      At 746 grid_data_loop;
      At 756 (Assign (Name "ds")
                (Call (yt "load_amr_grids")
                   [ Name "grid_data";
                     ListLit [IntLit 32; IntLit 32; IntLit 32];
                     Keyword "bbox"
                       (Call (np "array") [ListLit [unit_interval; unit_interval; unit_interval]]) ])) ];
    [ At 776 (Assign (Name "p")
                (Call
                   (Attribute
                      (Call
                         (Attribute
                            (Subscript (Attribute (Name "ds") "r") [all; FloatLit "0.5"; all])
                            "plot")
                         [StrLit "density"])
                      "set_log")
                   [StrLit "density"; BoolLit false])) ];
    [ At 794 (method (Name "p") "zoom" [IntLit 4]) ] ].

(** The material: the three notebooks in the order the source file holds them. *)
Definition notebooks : list notebook := [tfh_tutorial; owls_examples; load_via_functions].

End Material.

(** ** Reading the syntax trees: call sites, callees, traces *)

Module Analysis.

(** *** Call sites *)

(** A call site: the callee expression and the arguments as written. *)
Record site := Site { callee : expr; arguments : list expr }.

Definition opt_sites (f : expr -> list site) (o : option expr) : list site :=
  match o with Some e => f e | None => [] end.

(** The call sites of an expression.  A call stands after the calls that
    evaluate its callee and its arguments; the calls of a generator's element
    stand with the generator. *)
Fixpoint expr_sites (e : expr) : list site :=
  match e with
  | Call f args => expr_sites f ++ flat_map expr_sites args ++ [Site f args]
  | Attribute v _ | Keyword _ v | UnaryOp _ v => expr_sites v
  | Subscript v idx => expr_sites v ++ flat_map expr_sites idx
  | Slice lo hi st =>
      opt_sites expr_sites lo ++ opt_sites expr_sites hi ++ opt_sites expr_sites st
  | Tuple es | ListLit es => flat_map expr_sites es
  | Dict ks vs => flat_map expr_sites ks ++ flat_map expr_sites vs
  | BinOp l _ r | Compare l _ r => expr_sites l ++ expr_sites r
  | GeneratorExp elt _ iter => expr_sites iter ++ expr_sites elt
  | Name _ | StrLit _ | IntLit _ | FloatLit _ | ImagLit _ | BoolLit _ | NoneLit => []
  end.

(** Every call site written in a statement, the bodies of function
    definitions included. *)
Fixpoint stmt_sites (s : stmt) : list site :=
  match s with
  | Import _ _ | ImportFrom _ _ | Magic _ => []
  | Assign t v => expr_sites v ++ expr_sites t
  | Expr v | Return v | Assert v => expr_sites v
  | FunctionDef _ _ body | ClassDef _ body => flat_map stmt_sites body
  | For t it body => expr_sites it ++ expr_sites t ++ flat_map stmt_sites body
  | While c body | With c body => expr_sites c ++ flat_map stmt_sites body
  | If c b1 b2 => expr_sites c ++ flat_map stmt_sites b1 ++ flat_map stmt_sites b2
  | Try b h f => flat_map stmt_sites b ++ flat_map stmt_sites h ++ flat_map stmt_sites f
  | Raise o => opt_sites expr_sites o
  end.

(** The top-level statements of a notebook, cell after cell. *)
Definition statements (nb : notebook) : list located := concat (cells nb).

Definition sites (nb : notebook) : list site :=
  flat_map (fun s => stmt_sites (node s)) (statements nb).

(** *** Resolving a callee through the imports *)

Fixpoint assoc {V} (k : string) (l : list (string * V)) : option V :=
  match l with
  | [] => None
  | (k', v) :: l' => if String.eqb k k' then Some v else assoc k l'
  end.

(** [import m as a] binds [a] to the module [m]; [import m] binds [m]. *)
Definition module_aliases (nb : notebook) : list (string * string) :=
  flat_map (fun s => match node s with
                     | Import m (Some a) => [(a, m)]
                     | Import m None => [(m, m)]
                     | _ => []
                     end) (statements nb).

(** [from m import n] binds [n] to the member [n] of module [m]. *)
Definition imported_names (nb : notebook) : list (string * string) :=
  flat_map (fun s => match node s with ImportFrom m n => [(n, m)] | _ => [] end)
           (statements nb).

(** The functions the notebook defines itself. *)
Definition defined (nb : notebook) : list string :=
  flat_map (fun s => match node s with FunctionDef n _ _ => [n] | _ => [] end)
           (statements nb).

(** What a callee refers to. *)
Inductive target :=
| External (module name : string)
| Local (name : string)
| Builtin (name : string)
| Method (name : string)
| Computed.

Definition resolve (nb : notebook) (f : expr) : target :=
  match f with
  | Name n =>
      match assoc n (imported_names nb) with
      | Some m => External m n
      | None => if existsb (String.eqb n) (defined nb) then Local n else Builtin n
      end
  | Attribute (Name a) n =>
      match assoc a (module_aliases nb) with
      | Some m => External m n
      | None => Method n
      end
  | Attribute _ n => Method n
  | _ => Computed
  end.

(** The top-level package of a dotted module name. *)
Fixpoint package (m : string) : string :=
  match m with
  | EmptyString => EmptyString
  | String c r => if Ascii.eqb c "."%char then EmptyString else String c (package r)
  end.

(** The external functions a notebook calls, as (module, name), one entry per
    call site. *)
Definition external_calls (nb : notebook) : list (string * string) :=
  flat_map (fun c => match resolve nb (callee c) with
                     | External m n => [(m, n)]
                     | _ => []
                     end) (sites nb).

(** The six functions the specification lists as the whole call surface. *)
Definition listed_api : list string :=
  ["load"; "load_sample"; "load_amr_grids"; "ProjectionPlot"; "TransferFunctionHelper";
   "volume_render"].

Definition mem (x : string) (l : list string) : bool := existsb (String.eqb x) l.

(** *** The trace of a notebook run *)

(** What a name is bound to while the cells run: the package its value comes
    from, if any, and the object it holds.  Modules, imported names and the
    functions a notebook defines hold no object: calling one of them makes a
    new object.  Objects are numbered in the order they are made. *)
Record binding := Bind { origin : option string; object : option nat }.

Definition env := list (string * binding).

(** The name a chain of attribute accesses, subscripts and calls starts from. *)
Fixpoint root (e : expr) : option string :=
  match e with
  | Name n => Some n
  | Attribute v _ | Subscript v _ => root v
  | Call f _ => root f
  | _ => None
  end.

(** The name a call is made under: the function name or the method name. *)
Definition callee_name (f : expr) : option string :=
  match f with
  | Name n => Some n
  | Attribute _ a => Some a
  | _ => None
  end.

Definition origin_of (rho : env) (e : expr) : option string :=
  match root e with
  | Some n => match assoc n rho with Some b => origin b | None => None end
  | None => None
  end.

Definition object_of (rho : env) (n : string) : option nat :=
  match assoc n rho with Some b => object b | None => None end.

Definition bind (o : option string) (k : option nat) (rho : env) (n : string) : env :=
  (n, Bind o k) :: rho.

(** The names an assignment target binds. *)
Fixpoint target_names (t : expr) : list string :=
  match t with
  | Name n => [n]
  | Tuple es | ListLit es => flat_map target_names es
  | _ => []
  end.

(** One call made by the notebook: the line of the top-level statement, the
    name called, the object the call concerns, and the package the callee
    comes from.  A method call concerns the object it is made on, and so does
    whatever it returns: an attribute, a subscript or the result of a method
    of an object is that object or a part of it.  A call of a module
    function, of a class or of a function concerns the new object it makes.
    The subject is therefore the same whether an intermediate result is named
    ([source = sc.get_source()] and then [source.f()]) or not
    ([sc.get_source().f()]). *)
Record event := Event {
  at_line : nat;
  called : string;
  subject : nat;
  from_package : option string
}.

(** The result of evaluating an expression: the object its value is (a part
    of), if any, the number of the next new object, and the calls made. *)
Record outcome := Outcome {
  value_object : option nat;
  next_object : nat;
  calls : list event
}.

(** Evaluating an expression, callee before arguments, arguments from left to
    right. *)
Fixpoint eval (ln : nat) (rho : env) (e : expr) (next : nat) : outcome :=
  let eval_all es next :=
    fold_left (fun st a => let r := eval ln rho a (fst st) in
                           (next_object r, snd st ++ calls r))
              es (next, []) in
  let eval_opt o st :=
    match o with
    | Some a => let r := eval ln rho a (fst st) in (next_object r, snd st ++ calls r)
    | None => st
    end in
  match e with
  | Name n => Outcome (object_of rho n) next []
  | Attribute v _ | Keyword _ v => eval ln rho v next
  | UnaryOp _ v => let r := eval ln rho v next in Outcome None (next_object r) (calls r)
  | Subscript v idx =>
      let r := eval ln rho v next in
      let rs := eval_all idx (next_object r) in
      Outcome (value_object r) (fst rs) (calls r ++ snd rs)
  | Call f args =>
      let r := eval ln rho f next in
      let rs := eval_all args (next_object r) in
      let k := match value_object r with Some k => k | None => fst rs end in
      let next' := match value_object r with Some _ => fst rs | None => S (fst rs) end in
      Outcome (Some k) next'
        (calls r ++ snd rs ++
         match callee_name f with
         | Some n => [Event ln n k (origin_of rho f)]
         | None => []
         end)
  | Slice lo hi st =>
      let rs := eval_opt st (eval_opt hi (eval_opt lo (next, []))) in
      Outcome None (fst rs) (snd rs)
  | Tuple es | ListLit es =>
      let rs := eval_all es next in Outcome None (fst rs) (snd rs)
  | Dict ks vs =>
      let rs := eval_all ks next in
      let rs' := eval_all vs (fst rs) in
      Outcome None (fst rs') (snd rs ++ snd rs')
  | BinOp l _ r | Compare l _ r =>
      let rl := eval ln rho l next in
      let rr := eval ln rho r (next_object rl) in
      Outcome None (next_object rr) (calls rl ++ calls rr)
  | GeneratorExp elt _ iter =>
      let ri := eval ln rho iter next in
      let re := eval ln rho elt (next_object ri) in
      Outcome None (next_object re) (calls ri ++ calls re)
  | StrLit _ | IntLit _ | FloatLit _ | ImagLit _ | BoolLit _ | NoneLit => Outcome None next []
  end.

(** A function defined in the notebook is attributed to the package of the
    first call its body makes. *)
Definition def_origin (rho : env) (body : list stmt) : option string :=
  match flat_map stmt_sites body with
  | c :: _ => origin_of rho (callee c)
  | [] => None
  end.

(** The names in force and the number of the next new object. *)
Record state := State { bindings : env; fresh : nat }.

(** Binding the targets [t] to the value of [v]: to the object the value is a
    part of, or to a new object. *)
Definition bind_value (ln : nat) (st : state) (t v : expr) : state * list event :=
  let r := eval ln (bindings st) v (fresh st) in
  let k := match value_object r with Some k => k | None => next_object r end in
  let next := match value_object r with Some _ => next_object r | None => S (next_object r) end in
  let rt := eval ln (bindings st) t next in
  (State (fold_left (bind (origin_of (bindings st) v) (Some k)) (target_names t) (bindings st))
         (next_object rt),
   calls r ++ calls rt).

Definition run_expr (ln : nat) (st : state) (v : expr) : state * list event :=
  let r := eval ln (bindings st) v (fresh st) in
  (State (bindings st) (next_object r), calls r).

(** Running one statement: the state after it and the calls it makes.
    Defining a function makes no call; a loop body is run once; the forms the
    notebooks do not use run their blocks one after the other. *)
Fixpoint exec (ln : nat) (s : stmt) (st : state) : state * list event :=
  let block body st :=
    fold_left (fun acc s' => let r := exec ln s' (fst acc) in (fst r, snd acc ++ snd r))
              body (st, []) in
  let named o n := State (bind o None (bindings st) n) (fresh st) in
  match s with
  | Import m (Some a) => (named (Some (package m)) a, [])
  | Import m None => (named (Some (package m)) (package m), [])
  | ImportFrom m n => (named (Some (package m)) n, [])
  | Magic _ => (st, [])
  | Assign t v => bind_value ln st t v
  | Expr v | Return v | Assert v => run_expr ln st v
  | FunctionDef n _ body => (named (def_origin (bindings st) body) n, [])
  | ClassDef n _ => (named None n, [])
  | For t it body =>
      let r0 := bind_value ln st t it in
      let r := block body (fst r0) in
      (fst r, snd r0 ++ snd r)
  | While c body | With c body =>
      let r0 := run_expr ln st c in
      let r := block body (fst r0) in (fst r, snd r0 ++ snd r)
  | If c b1 b2 =>
      let r0 := run_expr ln st c in
      let r1 := block b1 (fst r0) in
      let r2 := block b2 (fst r1) in
      (fst r2, snd r0 ++ snd r1 ++ snd r2)
  | Try b h f =>
      let r1 := block b st in
      let r2 := block h (fst r1) in
      let r3 := block f (fst r2) in
      (fst r3, snd r1 ++ snd r2 ++ snd r3)
  | Raise o => match o with Some e => run_expr ln st e | None => (st, []) end
  end.


(** *** The phases of the pipeline *)






End Analysis.

(** ** The part of numpy the notebooks' own code relies on *)

Module Numpy.

(** Arrays of rank 1 are lists; arrays of rank 3 are lists of lists of lists,
    the first axis outermost. *)
Abbreviation array3 F := (list (list (list F))).

(** float64 arithmetic and the numpy functions [my_function] calls, over a type
    [F] of array elements.  Nothing is assumed of the arithmetic.  Of
    [np.linspace(start, stop, num)] two documented facts are used: a negative
    [num] raises ValueError (here [None]), and otherwise the result holds
    exactly [num] samples. *)
Class NumPy (F : Type) := {
  of_int : Z -> F;
  of_decimal : Q -> F;
  f_add : F -> F -> F;
  f_sub : F -> F -> F;
  f_mul : F -> F -> F;
  f_div : F -> F -> F;
  f_pow : F -> Z -> F;
  np_sqrt : F -> F;
  np_exp : F -> F;
  np_sin : F -> F;
  np_pi : F;
  np_linspace : F -> F -> Z -> option (list F);
  linspace_negative : forall a b n, n < 0 -> np_linspace a b n = None;
  linspace_samples : forall a b n, 0 <= n ->
    exists l, np_linspace a b n = Some l /\ length l = Z.to_nat n
}.

Section Arrays.
Context {A B C : Type}.

(** One axis of numpy's broadcasting: two axes of equal length are combined
    position by position, an axis of length 1 is stretched to the other, and
    any other pair of lengths raises ValueError (here [None]). *)
Definition broadcast (f : A -> B -> option C) (xs : list A) (ys : list B) : option (list C) :=
  if decide (length xs = length ys) then mapM (fun p => f (fst p) (snd p)) (zip xs ys)
  else match xs, ys with
       | [x], _ => mapM (f x) ys
       | _, [y] => mapM (fun x => f x y) xs
       | _, _ => None
       end.

(** [a[i, j, k]]. *)
Definition get3 (a : array3 A) (i j k : nat) : option A :=
  match nth_error a i with
  | Some plane =>
      match nth_error plane j with
      | Some row => nth_error row k
      | None => None
      end
  | None => None
  end.

(** The array has shape [(n0, n1, n2)]. *)
Definition has_shape (a : array3 A) (n0 n1 n2 : nat) : Prop :=
  length a = n0 /\
  Forall (fun plane => length plane = n1 /\ Forall (fun row => length row = n2) plane) a.

Definition map3 (f : A -> B) (a : array3 A) : array3 B := List.map (List.map (List.map f)) a.

(** [v[:, None, None]], [v[None, :, None]] and [v[None, None, :]]: a rank-1
    array laid along the first, second or third axis of a rank-3 array. *)
Definition along_axis0 (v : list A) : array3 A := List.map (fun a => [[a]]) v.
Definition along_axis1 (v : list A) : array3 A := [List.map (fun b => [b]) v].
Definition along_axis2 (v : list A) : array3 A := [[v]].

(** [enumerate(l)]. *)
Definition enumerate (l : list A) : list (nat * A) := zip (seq 0 (length l)) l.

End Arrays.

(** The rank-3 array whose entry [(i, j, k)] is [u xs[i] ys[j] zs[k]], and its
    counterpart with a last axis of length 1. *)
Definition outer3 {A B C D} (u : A -> B -> C -> D) (xs : list A) (ys : list B) (zs : list C)
  : array3 D :=
  List.map (fun a => List.map (fun b => List.map (fun c => u a b c) zs) ys) xs.

Definition outer2 {A B D} (u : A -> B -> D) (xs : list A) (ys : list B) : array3 D :=
  List.map (fun a => List.map (fun b => [u a b]) ys) xs.

(** A binary operator between two rank-3 arrays, broadcast on every axis. *)
Definition elementwise {F} (op : F -> F -> F) (a b : array3 F) : option (array3 F) :=
  broadcast (broadcast (broadcast (fun u v => Some (op u v)))) a b.

End Numpy.
Import Numpy.

(** ** [showme] (notebook 1, lines 29-35) *)

Module Showme.

(** Image entries are IEEE 754 floating-point numbers. *)
Definition is_nan (x : spec_float) : bool :=
  match x with S754_nan => true | _ => false end.

(** [x != y] on floats: the negation of IEEE equality. *)
Definition ne (x y : spec_float) : bool := negb (SFeqb x y).

(** The literal [0.0]. *)
Definition zero : spec_float := S754_zero false.

(** [a[mask] = v]: the entries where the mask holds are overwritten. *)
Definition assign_where (mask : array3 bool) (v : spec_float) (a : array3 spec_float)
  : array3 spec_float :=
  zip_with (zip_with (zip_with (fun (m : bool) x => if m then v else x))) mask a.

(** [im != im], entry by entry. *)
Definition ne_self (im : array3 spec_float) : array3 bool :=
  zip_with (zip_with (zip_with ne)) im im.

(** Line 31: [im[im != im] = 0.0]. *)
Definition screen_nans (im : array3 spec_float) : array3 spec_float :=
  assign_where (ne_self im) zero im.

(** What line 31 does to one entry. *)
Definition screen_entry (x : spec_float) : spec_float := if is_nan x then zero else x.

(** A 1 x 2 x 3 image with a NaN, an infinity and finite entries. *)
Definition sample_image : array3 spec_float :=
  [[ [S754_nan; S754_finite false 3 (-1); S754_zero true];
     [S754_infinity false; S754_nan; S754_finite true 5 2] ]].

Section Display.
(** [yt.write_bitmap(im, None)] and IPython's [Image(imb)] are library calls;
    either may raise ([None]). *)
Variables bitmap picture : Type.
Variable write_bitmap : array3 spec_float -> option bitmap.
Variable Image : bitmap -> option picture.

(** [showme(im)]: the array as the call leaves it (the assignment of line 31
    is in place) and the value returned, if no library call raised. *)
Definition showme (im : array3 spec_float) : array3 spec_float * option picture :=
  let im := screen_nans im in
  (im, match write_bitmap im with
       | Some imb => Image imb
       | None => None
       end).

End Display.

End Showme.

(** ** A call of [showme] and the ways it ends *)

Module ShowmeCall.
Import Showme.

(** A numpy array as [showme] receives it: its entries and its [writeable]
    flag.  An array whose flag is cleared, or a view of one, refuses every
    assignment. *)
Record ndarray := Ndarray { entries : array3 spec_float; writeable : bool }.

(** How a call ends: it returns a value, or an exception leaves it at a line
    of the source. *)
Inductive ending (picture : Type) :=
| Returned (p : picture)
| Raised (at_line : nat).
Arguments Returned {picture}.
Arguments Raised {picture}.

Definition raises {picture : Type} (e : ending picture) : bool :=
  match e with Raised _ => true | Returned _ => false end.

Section Call.
Variables bitmap picture : Type.
Variable write_bitmap : array3 spec_float -> option bitmap.
Variable Image : bitmap -> option picture.

(** Line 31, [im[im != im] = 0.0]: numpy refuses the assignment into an array
    that is not writeable, whatever the mask selects. *)
Definition screen_in_place (im : ndarray) : option ndarray :=
  if writeable im then Some (Ndarray (screen_nans (entries im)) true) else None.

(** Lines 29-35: the array as the call [showme(im)] leaves it, and how the
    call ends.  No statement of [showme] catches an exception: the first one
    raised ends the call. *)
Definition call_showme (im : ndarray) : ndarray * ending picture :=
  match screen_in_place im with
  | None => (im, Raised 31)
  | Some im' =>
      match write_bitmap (entries im') with
      | None => (im', Raised 34)
      | Some imb =>
          match Image imb with
          | None => (im', Raised 35)
          | Some p => (im', Returned p)
          end
      end
  end.

End Call.

End ShowmeCall.

(** ** [my_function] (notebook 3, lines 692-725) *)

Module MyFunction.

(** Lines 692-694, the bindings in force whenever [my_function] runs. *)
Definition x_coefficients : list Z := [100; 50; 30; 10; 20].
Definition y_coefficients : list Z := [20; 90; 80; 30; 30].
Definition z_coefficients : list Z := [50; 10; 90; 40; 40].

Inductive axis := Axis0 | Axis1 | Axis2.

Record triple (A : Type) := Triple { c0 : A; c1 : A; c2 : A }.
Arguments Triple {A}.
Arguments c0 {A}.
Arguments c1 {A}.
Arguments c2 {A}.

(** [v[i]] for [i] in [(0, 1, 2)]. *)
Definition component {A} (v : triple A) (i : axis) : A :=
  match i with Axis0 => c0 v | Axis1 => c1 v | Axis2 => c2 v end.

(** A grid object of the library: the four attributes [my_function] reads, and
    two of the attributes it does not read. *)
Record grid (F : Type) := Grid {
  LeftEdge : triple F;
  RightEdge : triple F;
  dds : triple F;
  ActiveDimensions : triple Z;
  Level : Z;
  id : Z
}.
Arguments LeftEdge {F}.
Arguments RightEdge {F}.
Arguments dds {F}.
Arguments ActiveDimensions {F}.
Arguments Level {F}.
Arguments id {F}.

Section Field.
Context {F : Type} {NP : NumPy F}.

(** Lines 700-704: the samples along axis [i], from the first cell center to
    the last. *)
Definition cell_centers (g : grid F) (i : axis) : option (list F) :=
  np_linspace
    (f_add (component (LeftEdge g) i) (f_div (component (dds g) i) (of_int 2)))
    (f_sub (component (RightEdge g) i) (f_div (component (dds g) i) (of_int 2)))
    (component (ActiveDimensions g) i).

(** [(v - 0.5) ** 2]. *)
Definition offset_squared (a : F) : F := f_pow (f_sub a (of_decimal (5 # 10))) 2.

(** Line 712 at one entry: [exp(-20 * (1.1 * r**2))]. *)
Definition gaussian (r : F) : F :=
  np_exp (f_mul (of_int (-20)) (f_mul (of_decimal (11 # 10)) (f_pow r 2))).

(** The term of lines 714, 718 and 722 at one sample:
    [c * sin(2 ** (1 + i) * (v * pi * 2))]. *)
Definition mode (i : nat) (c : Z) (v : F) : F :=
  f_mul (of_int c)
    (np_sin (f_mul (of_int (2 ^ (1 + Z.of_nat i))) (f_mul (f_mul v np_pi) (of_int 2)))).

(** Python's [sum] starts from the integer 0; adding the first array to it gives
    an array. *)
Inductive total := Number (z : Z) | Array (a : list F).

Definition plus (acc : total) (term : list F) : option total :=
  match acc with
  | Number z => Some (Array (List.map (f_add (of_int z)) term))
  | Array a => Array <$> broadcast (fun u v => Some (f_add u v)) a term
  end.

Definition py_sum (terms : list (list F)) : option total :=
  fold_left (fun acc term => match acc with Some a => plus a term | None => None end)
            terms (Some (Number 0)).

(** A subscript with slices needs an array: an integer cannot be subscripted. *)
Definition as_array (t : total) : option (list F) :=
  match t with Array a => Some a | Number _ => None end.

(** Lines 713-724: [sum(c * np.sin(...) for i, c in enumerate(coefficients))]. *)
Definition sum_of_modes (coefficients : list Z) (v : list F) : option total :=
  py_sum (List.map (fun ic => List.map (mode (fst ic) (snd ic)) v) (enumerate coefficients)).

(** Lines 697-725.  [None] stands for a raised exception. *)
Definition my_function (g : grid F) (field_name : string) : option (array3 F) :=
  x ← cell_centers g Axis0;
  y ← cell_centers g Axis1;
  z ← cell_centers g Axis2;
  xy ← elementwise f_add (along_axis0 (List.map offset_squared x))
                         (along_axis1 (List.map offset_squared y));
  xyz ← elementwise f_add xy (along_axis2 (List.map offset_squared z));
  let r := map3 np_sqrt xyz in
  let atten := map3 gaussian r in
  xv ← sum_of_modes x_coefficients x;
  yv ← sum_of_modes y_coefficients y;
  zv ← sum_of_modes z_coefficients z;
  xv ← as_array xv;
  yv ← as_array yv;
  zv ← as_array zv;
  xy ← elementwise f_mul (along_axis0 xv) (along_axis1 yv);
  xyz ← elementwise f_mul xy (along_axis2 zv);
  elementwise f_mul atten xyz.

(** What the code computes at one cell: the attenuation at the point
    [(a, b, c)] and the sum of sine modes along one axis. *)
Definition attenuation (a b c : F) : F :=
  gaussian (np_sqrt (f_add (f_add (offset_squared a) (offset_squared b)) (offset_squared c))).

Definition mode_sum (coefficients : list Z) (v : F) : F :=
  fold_left (fun acc ic => f_add acc (mode (fst ic) (snd ic) v))
            (enumerate coefficients) (of_int 0).

(** The value a cell of the result holds. *)
Definition cell_value (a b c : F) : F :=
  f_mul (attenuation a b c)
        (f_mul (f_mul (mode_sum x_coefficients a) (mode_sum y_coefficients b))
               (mode_sum z_coefficients c)).

(** A grid is well formed when no dimension is negative. *)
Definition well_formed (g : grid F) : Prop :=
  0 <= c0 (ActiveDimensions g) /\ 0 <= c1 (ActiveDimensions g) /\ 0 <= c2 (ActiveDimensions g).

End Field.

End MyFunction.

Import MyFunction.

(** ** The construction of [grid_data] (notebook 3, lines 743-755) *)

Module GridData.

Section Construction.
Context {F : Type} {NP : NumPy F}.

(** The Python values the grid descriptors hold. *)
Inductive value :=
| PyInt (z : Z)
| PyFloat (x : F)
| PyList (l : list value)
| PyFunction (f : grid F -> string -> option (array3 F))
| PyArray (a : array3 F).

(** One element of [yt.testing._amr_grid_index], as the loop header unpacks
    it: [level, le, re, dims].  The table itself is not part of the material
    and is a parameter of [grid_data]. *)
Definition index_entry : Type := value * value * value * value.

(** Lines 748-754: the dictionary literal, its keys inserted in the order
    written. *)
Definition descriptor (e : index_entry) : gmap string value :=
  let '(level, le, re, dims) := e in
  <["density" := PyFunction my_function]>
    (<["dimensions" := dims]>
       (<["right_edge" := re]>
          (<["left_edge" := le]>
             (<["level" := level]> ∅)))).

(** Lines 745-755: [grid_data] starts empty and every iteration appends one
    dictionary. *)
Definition grid_data (_amr_grid_index : list index_entry) : list (gmap string value) :=
  fold_left (fun grid_data e => grid_data ++ [descriptor e]) _amr_grid_index [].

End Construction.

End GridData.

(** ** Properties of statements read off the syntax *)

Module Shape.
Import Analysis.

Definition opt_all (p : expr -> bool) (o : option expr) : bool :=
  match o with Some e => p e | None => true end.

(** An expression that only passes literals and bound names to the library: it
    is built from literals, names, attribute accesses, subscripts, tuples and
    lists, and calls of imported functions or of methods, and holds no
    arithmetic, comparison, generator or dictionary of its own and no call of a
    builtin or of a function the notebook defines. *)
Fixpoint plain (nb : notebook) (e : expr) : bool :=
  match e with
  | Name _ | StrLit _ | IntLit _ | FloatLit _ | ImagLit _ | BoolLit _ | NoneLit => true
  | Attribute v _ | Keyword _ v | UnaryOp _ v => plain nb v
  | Subscript v idx => plain nb v && forallb (plain nb) idx
  | Slice lo hi st => opt_all (plain nb) lo && opt_all (plain nb) hi && opt_all (plain nb) st
  | Tuple es | ListLit es => forallb (plain nb) es
  | Call f args =>
      match resolve nb f with
      | External _ _ | Method _ => plain nb f && forallb (plain nb) args
      | _ => false
      end
  | Dict _ _ | BinOp _ _ _ | Compare _ _ _ | GeneratorExp _ _ _ => false
  end.

(** A statement that is a direct use of the library: an import, a magic, or an
    expression or assignment statement over a plain expression. *)
Definition direct (nb : notebook) (s : stmt) : bool :=
  match s with
  | Import _ _ | ImportFrom _ _ | Magic _ => true
  | Expr v => plain nb v
  | Assign t v => plain nb t && plain nb v
  | _ => false
  end.

(** The lines of the top-level statements that are not direct uses. *)
Definition own_logic (nb : notebook) : list nat :=
  List.map line (List.filter (fun s => negb (direct nb (node s))) (statements nb)).

(** Some statement of [s], at any depth, satisfies [p]. *)
Fixpoint anywhere (p : stmt -> bool) (s : stmt) : bool :=
  p s ||
  match s with
  | FunctionDef _ _ body | ClassDef _ body | For _ _ body | While _ body | With _ body =>
      existsb (anywhere p) body
  | If _ b1 b2 => existsb (anywhere p) b1 || existsb (anywhere p) b2
  | Try b h f => existsb (anywhere p) b || existsb (anywhere p) h || existsb (anywhere p) f
  | _ => false
  end.

Definition is_function_def (s : stmt) : bool :=
  match s with FunctionDef _ _ _ => true | _ => false end.

Definition is_loop (s : stmt) : bool :=
  match s with For _ _ _ | While _ _ => true | _ => false end.

Definition is_while (s : stmt) : bool :=
  match s with While _ _ => true | _ => false end.

Definition is_class_def (s : stmt) : bool :=
  match s with ClassDef _ _ => true | _ => false end.

Definition is_branch (s : stmt) : bool :=
  match s with If _ _ _ => true | _ => false end.

(** Error handling: raising, catching, asserting, or a context manager. *)
Definition is_error_handling (s : stmt) : bool :=
  match s with Try _ _ _ | Raise _ | Assert _ | With _ _ => true | _ => false end.

(** The dictionary literals a loop of the notebook appends to the list [var],
    each as its (key, value) pairs. *)
Definition appended_dicts (nb : notebook) (var : string) : list (list (expr * expr)) :=
  flat_map (fun s =>
    match node s with
    | For _ _ body =>
        flat_map (fun b =>
          match b with
          | Expr (Call (Attribute (Name v) "append") [Dict ks vs]) =>
              if String.eqb v var then [zip ks vs] else []
          | _ => []
          end) body
    | _ => []
    end) (statements nb).

End Shape.

(** ** The order of the pipeline *)

Module Pipeline.
Import Analysis.










End Pipeline.

(** ** The claims of the specification about the syntax, as propositions *)

Module Claims.
Import Analysis Shape Pipeline Material.

(** "Every operation is a direct invocation of an external library function
    with literal arguments; the source defines no control logic and no
    algorithm of its own." *)
Definition direct_invocations_only : Prop :=
  forall nb s, In nb notebooks -> In s (statements nb) ->
    direct nb (node s) = true /\
    anywhere is_function_def (node s) = false /\
    anywhere is_loop (node s) = false.

(** "Every external library function invoked is one of the six listed." *)
Definition only_listed_api : Prop :=
  forall nb m n, In nb notebooks -> In (m, n) (external_calls nb) -> In n listed_api.


(** "The functions the material defines (showme and my_function) contain no
    error branch and never raise for every well-formed input (a numeric image
    array for showme; a grid providing LeftEdge, RightEdge, dds and
    ActiveDimensions for my_function)."  The two library calls of [showme] are
    taken to return. *)
Definition never_raise : Prop :=
  (forall nb s, In nb notebooks -> In s (statements nb) ->
     anywhere is_error_handling (node s) = false) /\
  (forall (F : Type) (NP : NumPy F) (g : grid F) (field_name : string),
     my_function g field_name <> None) /\
  (forall (bitmap picture : Type) (write_bitmap : array3 spec_float -> bitmap)
          (Image : bitmap -> picture) (im : ShowmeCall.ndarray),
     ShowmeCall.raises
       (snd (ShowmeCall.call_showme bitmap picture
               (fun a => Some (write_bitmap a)) (fun b => Some (Image b)) im)) = false).

(** The lines of the top-level statements that hold, at any depth, a statement
    satisfying [p]. *)
Definition lines_with (p : stmt -> bool) (nb : notebook) : list nat :=
  List.map line (List.filter (fun s => anywhere p (node s)) (statements nb)).

(** The external functions outside the yt package that the notebooks call. *)
Definition other_libraries : list (string * string) :=
  [ ("IPython.core.display", "Image");
    ("numpy", "logspace"); ("numpy", "sin"); ("numpy", "exp"); ("numpy", "sqrt");
    ("numpy", "linspace"); ("numpy", "array");
    ("matplotlib.pyplot", "subplots"); ("matplotlib.pyplot", "pcolormesh") ].

Definition pair_eqb (a b : string * string) : bool :=
  String.eqb (fst a) (fst b) && String.eqb (snd a) (snd b).

(** The check behind the amended call surface. *)
Definition on_call_surface (c : string * string) : bool :=
  if String.eqb (package (fst c)) "yt"
  then mem (snd c) (listed_api ++ ["write_bitmap"])
  else existsb (pair_eqb c) other_libraries.

End Claims.

(** ** Further definitions: counting cells, views, coarse sampling, names *)

Module Cells.

(** The number of entries of a rank-3 array. *)
Definition size3 {A} (a : array3 A) : nat :=
  list_sum (List.map (fun plane => list_sum (List.map (@length A) plane)) a).

End Cells.

Module Views.
Import Showme.



Section Call.
Variables bitmap picture : Type.
Variable write_bitmap : array3 spec_float -> option bitmap.
Variable Image : bitmap -> option picture.


End Call.


End Views.

Module Names.
Import Analysis.

(** The builtin functions of Python a notebook may call without binding them. *)
Definition builtins : list string :=
  ["abs"; "all"; "any"; "bool"; "dict"; "enumerate"; "float"; "int"; "len"; "list"; "map";
   "max"; "min"; "print"; "range"; "sorted"; "str"; "sum"; "tuple"; "zip"].

(** One step of name resolution: a name is read; the body of the function a
    name is bound to is entered, once the arguments of the call are
    evaluated; a local variable of a function is read before the function
    has assigned it. *)
Inductive lookup :=
| Read (n : string)
| Enter (f : string)
| Unbound (n : string).

Definition reads_one_of (ns : list string) (l : lookup) : bool :=
  match l with Read n => mem n ns | _ => false end.

Definition opt_lookups (f : expr -> list lookup) (o : option expr) : list lookup :=
  match o with Some e => f e | None => [] end.

(** The lookups of an expression, in the order Python evaluates it: the
    callee before the arguments, the arguments from left to right, each key of
    a dictionary before its value, the iterable of a generator before its
    element.  The targets of a generator are bound inside its element only. *)
Fixpoint lookups (e : expr) : list lookup :=
  match e with
  | Name n => [Read n]
  | Attribute v _ | Keyword _ v | UnaryOp _ v => lookups v
  | Call f args =>
      lookups f ++ flat_map lookups args ++
      match f with Name n => [Enter n] | _ => [] end
  | Subscript v idx => lookups v ++ flat_map lookups idx
  | Slice lo hi st => opt_lookups lookups lo ++ opt_lookups lookups hi ++ opt_lookups lookups st
  | Tuple es | ListLit es => flat_map lookups es
  | Dict ks vs =>
      concat (zip_with app (List.map lookups ks) (List.map lookups vs))
  | BinOp l _ r | Compare l _ r => lookups l ++ lookups r
  | GeneratorExp elt target iter =>
      lookups iter ++
      List.filter (fun l => negb (reads_one_of (target_names target) l)) (lookups elt)
  | StrLit _ | IntLit _ | FloatLit _ | ImagLit _ | BoolLit _ | NoneLit => []
  end.

(** The lookups of an assignment target: storing into [v[...]] or [v.a] reads
    [v]; binding a name reads nothing. *)
Fixpoint target_lookups (t : expr) : list lookup :=
  match t with
  | Name _ => []
  | Tuple es | ListLit es => flat_map target_lookups es
  | other => lookups other
  end.

(** The names a statement binds, at any depth outside nested definitions:
    inside a function these are its local variables. *)
Fixpoint assigned (s : stmt) : list string :=
  match s with
  | Import m (Some a) => [a]
  | Import m None => [package m]
  | ImportFrom _ n => [n]
  | Assign t _ => target_names t
  | FunctionDef n _ _ | ClassDef n _ => [n]
  | For t _ body => target_names t ++ flat_map assigned body
  | While _ body | With _ body => flat_map assigned body
  | If _ b1 b2 => flat_map assigned b1 ++ flat_map assigned b2
  | Try b h f => flat_map assigned b ++ flat_map assigned h ++ flat_map assigned f
  | Magic _ | Expr _ | Return _ | Raise _ | Assert _ => []
  end.

(** *** Inside a function *)

(** A lookup made inside a function whose local variables are [locals], of
    which [bound] are assigned so far: a local variable is found if it is
    assigned and is unbound otherwise, whatever the module binds under that
    name; any other name is looked up at module level when the function is
    called. *)
Definition localise (locals bound : list string) (l : lookup) : list lookup :=
  match l with
  | Read n => if mem n bound then [] else if mem n locals then [Unbound n] else [Read n]
  | Enter f => if mem f locals then [] else [Enter f]
  | Unbound n => [Unbound n]
  end.

(** The lookups a statement of a function body makes at module level, and the
    local variables assigned after it.  Blocks are taken once, in sequence, and
    a nested definition only binds its name. *)
Fixpoint body_lookups (locals : list string) (s : stmt) (bound : list string)
  : list string * list lookup :=
  let here e := flat_map (localise locals bound) e in
  let block body bound :=
    fold_left (fun acc s' => let r := body_lookups locals s' (fst acc) in
                             (fst r, snd acc ++ snd r))
              body (bound, []) in
  match s with
  | Import _ _ | ImportFrom _ _ | FunctionDef _ _ _ | ClassDef _ _ => (assigned s ++ bound, [])
  | Magic _ => (bound, [])
  | Assign t v => (target_names t ++ bound, here (lookups v ++ target_lookups t))
  | Expr v | Return v | Assert v => (bound, here (lookups v))
  | For t it body =>
      let r := block body (target_names t ++ bound) in
      (fst r, here (lookups it) ++ snd r)
  | While c body | With c body =>
      let r := block body bound in (fst r, here (lookups c) ++ snd r)
  | If c b1 b2 =>
      let r1 := block b1 bound in
      let r2 := block b2 (fst r1) in
      (fst r2, here (lookups c) ++ snd r1 ++ snd r2)
  | Try b h f =>
      let r1 := block b bound in
      let r2 := block h (fst r1) in
      let r3 := block f (fst r2) in
      (fst r3, snd r1 ++ snd r2 ++ snd r3)
  | Raise o => (bound, here (opt_lookups lookups o))
  end.

(** What a call of [def f(params): body] looks up at module level, in order. *)
Definition needs (params : list string) (body : list stmt) : list lookup :=
  let locals := params ++ flat_map assigned body in
  snd (fold_left (fun acc s => let r := body_lookups locals s (fst acc) in
                               (fst r, snd acc ++ snd r))
                 body (params, [])).

(** *** At module level *)

(** The names bound at module level, and for each name bound to a function of
    the notebook what a call of it looks up. *)
Record scope := Scope {
  globals : list string;
  functions : list (string * list lookup)
}.

Definition in_sight (sc : scope) (n : string) : bool := mem n (globals sc) || mem n builtins.

Definition forget (n : string) (fs : list (string * list lookup)) : list (string * list lookup) :=
  List.filter (fun f => negb (String.eqb (fst f) n)) fs.

Definition bind_name (sc : scope) (n : string) : scope :=
  Scope (n :: globals sc) (forget n (functions sc)).

Definition define (sc : scope) (n : string) (ls : list lookup) : scope :=
  Scope (n :: globals sc) ((n, ls) :: forget n (functions sc)).

(** The first lookup that fails, which is the name of the NameError raised:
    Python looks names up when the code runs, the names of a function body
    when the function is called.  [depth] bounds the nesting of calls between
    functions of the notebook; a lookup that fails does so before a function
    is entered a second time, since lookups bind nothing. *)
Fixpoint first_failure (depth : nat) (sc : scope) (ls : list lookup) {struct depth}
  : option string :=
  match depth with
  | O => None
  | S d =>
      (fix go (ls : list lookup) : option string :=
         match ls with
         | [] => None
         | Read n :: rest => if in_sight sc n then go rest else Some n
         | Unbound n :: _ => Some n
         | Enter f :: rest =>
             match assoc f (functions sc) with
             | Some body =>
                 match first_failure d sc body with
                 | Some n => Some n
                 | None => go rest
                 end
             | None => go rest
             end
         end) ls
  end.

Definition name_error (sc : scope) (ls : list lookup) : option string :=
  first_failure (S (length (functions sc))) sc ls.

(** Running a statement at module level: the scope after it and the name of
    the NameError it raises, if any.  A statement that raises binds nothing,
    and what follows it in its block is not run.  Defining a function looks
    nothing up.  The bodies of loops and branches are taken once, in
    sequence. *)
Fixpoint exec (s : stmt) (sc : scope) {struct s} : scope * option string :=
  let block body sc :=
    fold_left (fun acc s' => match snd acc with
                             | Some _ => acc
                             | None => exec s' (fst acc)
                             end)
              body (sc, None) in
  let after ls (rest : scope -> scope * option string) :=
    match name_error sc ls with
    | Some n => (sc, Some n)
    | None => rest sc
    end in
  match s with
  | Import _ _ | ImportFrom _ _ => (fold_left bind_name (assigned s) sc, None)
  | Magic _ => (sc, None)
  | Assign t v =>
      after (lookups v ++ target_lookups t)
            (fun sc => (fold_left bind_name (target_names t) sc, None))
  | Expr v | Return v | Assert v => after (lookups v) (fun sc => (sc, None))
  | FunctionDef n params body => (define sc n (needs params body), None)
  | ClassDef n body =>
      let r := block body sc in
      match snd r with
      | Some e => (sc, Some e)
      | None => (bind_name sc n, None)
      end
  | For t it body =>
      after (lookups it) (fun sc => block body (fold_left bind_name (target_names t) sc))
  | While c body | With c body => after (lookups c) (block body)
  | If c b1 b2 =>
      after (lookups c) (fun sc => let r := block b1 sc in
                                   match snd r with
                                   | Some _ => r
                                   | None => block b2 (fst r)
                                   end)
  | Try b h f =>
      let r1 := block b sc in
      match snd r1 with
      | Some _ => r1
      | None =>
          let r2 := block h (fst r1) in
          match snd r2 with
          | Some _ => r2
          | None => block f (fst r2)
          end
      end
  | Raise o => after (opt_lookups lookups o) (fun sc => (sc, None))
  end.

(** Running a cell: an exception ends the cell, and the statements run before
    it keep their effect. *)
Definition run_cell (c : cell) (sc : scope) : scope * option (nat * string) :=
  fold_left (fun acc s => match snd acc with
                          | Some _ => acc
                          | None => let r := exec (node s) (fst acc) in
                                    (fst r, option_map (pair (line s)) (snd r))
                          end)
            c (sc, None).

(** Running the cells one after the other, each to its end or to its first
    exception: the scope at the end, and for every cell that raised the line
    of the statement and the name that was not bound. *)
Definition run_cells (cs : list cell) : scope * list (nat * string) :=
  fold_left (fun acc c => let r := run_cell c (fst acc) in
                          (fst r, snd acc ++ match snd r with Some e => [e] | None => [] end))
            cs (Scope [] [], []).

Definition name_errors (cs : list cell) : list (nat * string) := snd (run_cells cs).

End Names.

Module Sampling.

(** Arrays of rank 2: lists of rows. *)
Abbreviation array2 F := (list (list F)).

(** The entries of [l] at distance [step] from one another, the first one
    after [skip] entries. *)
Fixpoint take_every {A} (step skip : nat) (l : list A) : list A :=
  match l with
  | [] => []
  | x :: l' =>
      match skip with
      | O => x :: take_every step (step - 1) l'
      | S skip' => take_every step skip' l'
      end
  end.

(** [l[::step]]; a step of zero raises ValueError (here [None]). *)
Definition strided {A} (step : nat) (l : list A) : option (list A) :=
  if (step =? 0)%nat then None else Some (take_every step 0 l).

(** [a[::step, ::step]]. *)
Definition strided2 {A} (step : nat) (a : array2 A) : option (array2 A) :=
  match strided step a with
  | Some rows => mapM (strided step) rows
  | None => None
  end.

(** [a[i, j]]. *)
Definition get2 {A} (a : array2 A) (i j : nat) : option A :=
  match nth_error a i with
  | Some row => nth_error row j
  | None => None
  end.

(** The array has [n] rows of [m] entries. *)
Definition has_shape2 {A} (a : array2 A) (n m : nat) : Prop :=
  length a = n /\ Forall (fun row => length row = m) a.

(** A binary operator between two rank-2 arrays, broadcast on both axes. *)
Definition elementwise2 {F} (op : F -> F -> F) (a b : array2 F) : option (array2 F) :=
  broadcast (broadcast (fun u v => Some (op u v))) a b.

Section Coarse.
Context {F : Type} {NP : NumPy F}.

(** Line 670: the three arguments of
    [plt.pcolormesh(x[::32, ::32], y[::32, ::32], (z * atten)[::32, ::32])]. *)
Definition coarse_arguments (x y z atten : array2 F)
  : option (array2 F * array2 F * array2 F) :=
  match strided2 32 x with
  | Some xs =>
      match strided2 32 y with
      | Some ys =>
          match elementwise2 f_mul z atten with
          | Some product =>
              match strided2 32 product with
              | Some ps => Some (xs, ys, ps)
              | None => None
              end
          | None => None
          end
      | None => None
      end
  | None => None
  end.

End Coarse.

End Sampling.

Import Analysis Material Shape Showme ShowmeCall GridData Pipeline Claims.

(** * Proofs *)

(** ** Broadcasting *)

Section BroadcastFacts.
Context {A B C : Type}.
Implicit Types (f : A -> B -> option C).

Lemma mapM_map_total {X Y Z : Type} (f : Y -> option Z) (h : X -> Y) (g : X -> Z) (l : list X) :
  (forall x, f (h x) = Some (g x)) -> mapM f (List.map h l) = Some (List.map g l).
Proof.
  intros Hf. induction l as [|x l IH]; simpl; [reflexivity|].
  rewrite Hf. simpl. rewrite IH. reflexivity.
Qed.

Lemma mapM_total {X Z : Type} (f : X -> option Z) (g : X -> Z) (l : list X) :
  (forall x, f x = Some (g x)) -> mapM f l = Some (List.map g l).
Proof.
  intros Hf. rewrite <- (map_id l) at 1. now apply mapM_map_total.
Qed.

Lemma broadcast_stretch_left f (x : A) (ys : list B) :
  broadcast f [x] ys = mapM (f x) ys.
Proof.
  unfold broadcast. destruct (decide (length [x] = length ys)) as [Hlen|Hlen].
  - destruct ys as [|y [|y' ys]]; simpl in Hlen; try discriminate. reflexivity.
  - reflexivity.
Qed.

Lemma broadcast_stretch_right f (xs : list A) (y : B) :
  broadcast f xs [y] = mapM (fun x => f x y) xs.
Proof.
  unfold broadcast. destruct (decide (length xs = length [y])) as [Hlen|Hlen].
  - destruct xs as [|x [|x' xs]]; simpl in Hlen; try discriminate. reflexivity.
  - destruct xs as [|x [|x' xs]]; reflexivity.
Qed.

Lemma broadcast_aligned {X : Type} f (p : X -> A) (q : X -> B) (l : list X) :
  broadcast f (List.map p l) (List.map q l) = mapM (fun x => f (p x) (q x)) l.
Proof.
  unfold broadcast. rewrite !length_map.
  destruct (decide (length l = length l)) as [_|Hne]; [|congruence].
  induction l as [|x l IH]; simpl; [reflexivity|].
  destruct (f (p x) (q x)); simpl; [|reflexivity].
  rewrite IH. reflexivity.
Qed.

End BroadcastFacts.

Section ElementwiseFacts.
Context {F : Type}.
Implicit Types (op : F -> F -> F).

Lemma elementwise_axes01 op (xs ys : list F) :
  elementwise op (along_axis0 xs) (along_axis1 ys) = Some (outer2 op xs ys).
Proof.
  unfold elementwise, along_axis0, along_axis1, outer2.
  rewrite broadcast_stretch_right.
  apply mapM_map_total. intros a.
  rewrite broadcast_stretch_left.
  apply mapM_map_total. intros b.
  rewrite broadcast_stretch_left. reflexivity.
Qed.

Lemma elementwise_axis2 op (u : F -> F -> F) (xs ys zs : list F) :
  elementwise op (outer2 u xs ys) (along_axis2 zs)
  = Some (outer3 (fun a b c => op (u a b) c) xs ys zs).
Proof.
  unfold elementwise, along_axis2, outer2, outer3.
  rewrite broadcast_stretch_right.
  apply mapM_map_total. intros a.
  rewrite broadcast_stretch_right.
  apply mapM_map_total. intros b.
  rewrite broadcast_stretch_left.
  now apply mapM_total.
Qed.

Lemma elementwise_same_shape op (p q : F -> F -> F -> F) (xs ys zs : list F) :
  elementwise op (outer3 p xs ys zs) (outer3 q xs ys zs)
  = Some (outer3 (fun a b c => op (p a b c) (q a b c)) xs ys zs).
Proof.
  unfold elementwise, outer3.
  rewrite broadcast_aligned. apply mapM_total. intros a.
  rewrite broadcast_aligned. apply mapM_total. intros b.
  rewrite broadcast_aligned. now apply mapM_total.
Qed.

Lemma map3_outer3 {G : Type} (f : F -> G) (u : F -> F -> F -> F) (xs ys zs : list F) :
  map3 f (outer3 u xs ys zs) = outer3 (fun a b c => f (u a b c)) xs ys zs.
Proof.
  unfold map3, outer3. rewrite map_map. apply map_ext. intros a.
  rewrite map_map. apply map_ext. intros b.
  rewrite map_map. reflexivity.
Qed.

Lemma outer3_shape {G : Type} (u : F -> F -> F -> G) (xs ys zs : list F) :
  has_shape (outer3 u xs ys zs) (length xs) (length ys) (length zs).
Proof.
  unfold has_shape, outer3. split; [apply length_map|].
  apply List.Forall_forall. intros plane Hplane.
  apply in_map_iff in Hplane as (a & <- & _).
  split; [apply length_map|].
  apply List.Forall_forall. intros row Hrow.
  apply in_map_iff in Hrow as (b & <- & _).
  apply length_map.
Qed.

Lemma outer3_map {X Y Z G : Type} (u : F -> F -> F -> G)
      (f : X -> F) (g : Y -> F) (h : Z -> F) (xs : list X) (ys : list Y) (zs : list Z) :
  outer3 u (List.map f xs) (List.map g ys) (List.map h zs)
  = outer3 (fun a b c => u (f a) (g b) (h c)) xs ys zs.
Proof.
  unfold outer3. rewrite map_map. apply map_ext. intros a.
  rewrite map_map. apply map_ext. intros b.
  rewrite map_map. reflexivity.
Qed.

Lemma outer3_get3 {G : Type} (u : F -> F -> F -> G) (xs ys zs : list F) i j k a b c :
  nth_error xs i = Some a -> nth_error ys j = Some b -> nth_error zs k = Some c ->
  get3 (outer3 u xs ys zs) i j k = Some (u a b c).
Proof.
  intros Ha Hb Hc. unfold get3, outer3.
  rewrite nth_error_map, Ha. simpl.
  rewrite nth_error_map, Hb. simpl.
  rewrite nth_error_map, Hc. reflexivity.
Qed.

End ElementwiseFacts.

(** ** [my_function] *)

Section MyFunctionFacts.
Context {F : Type} {NP : NumPy F}.

(** Once the running total is an array, adding the remaining terms keeps it
    an array of the same samples. *)
Lemma py_sum_from_array (modes : list (nat * Z)) (v : list F) (acc : F -> F) :
  fold_left (fun acc term => match acc with Some a => plus a term | None => None end)
            (List.map (fun ic => List.map (mode (fst ic) (snd ic)) v) modes)
            (Some (Array (List.map acc v)))
  = Some (Array (List.map (fun e =>
            fold_left (fun s ic => f_add s (mode (fst ic) (snd ic) e)) modes (acc e)) v)).
Proof.
  revert acc. induction modes as [|ic modes IH]; intros acc; simpl; [reflexivity|].
  rewrite broadcast_aligned.
  rewrite (mapM_total _ (fun e => f_add (acc e) (mode (fst ic) (snd ic) e))) by reflexivity.
  simpl. apply (IH (fun e => f_add (acc e) (mode (fst ic) (snd ic) e))).
Qed.

(** The sum over a non-empty tuple of coefficients is the array of the mode
    sums at the samples. *)
Lemma sum_of_modes_array (coefficients : list Z) (v : list F) :
  coefficients <> [] ->
  sum_of_modes coefficients v = Some (Array (List.map (mode_sum coefficients) v)).
Proof.
  intros Hne. unfold sum_of_modes, py_sum, mode_sum.
  destruct coefficients as [|c0 rest]; [congruence|].
  unfold enumerate. simpl.
  rewrite map_map.
  apply (py_sum_from_array _ v (fun e => f_add (of_int 0) (mode 0 c0 e))).
Qed.

(** With the samples of the three axes at hand, [my_function] returns the
    array of the cell values. *)
Lemma my_function_value (g : grid F) (field_name : string) (x y z : list F) :
  cell_centers g Axis0 = Some x ->
  cell_centers g Axis1 = Some y ->
  cell_centers g Axis2 = Some z ->
  my_function g field_name = Some (outer3 cell_value x y z).
Proof.
  intros Hx Hy Hz. unfold my_function. rewrite Hx, Hy, Hz. simpl.
  rewrite elementwise_axes01. simpl.
  rewrite elementwise_axis2. simpl.
  rewrite !sum_of_modes_array by discriminate. simpl.
  rewrite elementwise_axes01. simpl.
  rewrite elementwise_axis2. simpl.
  rewrite !map3_outer3, !outer3_map.
  rewrite elementwise_same_shape. reflexivity.
Qed.

Lemma cell_centers_samples (g : grid F) (i : axis) :
  0 <= component (ActiveDimensions g) i ->
  exists l, cell_centers g i = Some l /\
            length l = Z.to_nat (component (ActiveDimensions g) i).
Proof. intros Hn. unfold cell_centers. now apply linspace_samples. Qed.

(** On a well-formed grid [my_function] returns, and what it returns is the
    array of the cell values at the samples of the three axes. *)
Lemma my_function_returns (g : grid F) (field_name : string) :
  well_formed g ->
  exists x y z,
    cell_centers g Axis0 = Some x /\ length x = Z.to_nat (c0 (ActiveDimensions g)) /\
    cell_centers g Axis1 = Some y /\ length y = Z.to_nat (c1 (ActiveDimensions g)) /\
    cell_centers g Axis2 = Some z /\ length z = Z.to_nat (c2 (ActiveDimensions g)) /\
    my_function g field_name = Some (outer3 cell_value x y z).
Proof.
  intros (H0 & H1 & H2).
  destruct (cell_centers_samples g Axis0 H0) as (x & Hx & Lx).
  destruct (cell_centers_samples g Axis1 H1) as (y & Hy & Ly).
  destruct (cell_centers_samples g Axis2 H2) as (z & Hz & Lz).
  exists x, y, z.
  split; [exact Hx|]. split; [exact Lx|].
  split; [exact Hy|]. split; [exact Ly|].
  split; [exact Hz|]. split; [exact Lz|].
  now apply my_function_value.
Qed.

(** The error path exists: a negative dimension makes [np.linspace] raise. *)
Lemma my_function_negative_dimension (g : grid F) (field_name : string) :
  c0 (ActiveDimensions g) < 0 -> my_function g field_name = None.
Proof.
  intros Hneg. unfold my_function, cell_centers. simpl.
  rewrite (linspace_negative _ _ _ Hneg). reflexivity.
Qed.

(** [my_function] raises exactly on a negative dimension, along any axis. *)
Lemma my_function_raises (g : grid F) (field_name : string) :
  my_function g field_name = None <->
  (c0 (ActiveDimensions g) < 0 \/ c1 (ActiveDimensions g) < 0 \/ c2 (ActiveDimensions g) < 0).
Proof.
  split.
  - intros Hnone.
    destruct (Z.lt_ge_cases (c0 (ActiveDimensions g)) 0) as [H0|H0]; [now left|].
    destruct (Z.lt_ge_cases (c1 (ActiveDimensions g)) 0) as [H1|H1]; [right; now left|].
    destruct (Z.lt_ge_cases (c2 (ActiveDimensions g)) 0) as [H2|H2]; [right; now right|].
    destruct (my_function_returns g field_name (conj H0 (conj H1 H2)))
      as (x & y & z & _ & _ & _ & _ & _ & _ & Hres).
    rewrite Hres in Hnone. discriminate.
  - intros Hneg.
    destruct (Z.lt_ge_cases (c0 (ActiveDimensions g)) 0) as [H0|H0];
      [now apply my_function_negative_dimension|].
    destruct (cell_centers_samples g Axis0 H0) as (x & Hx & _).
    unfold my_function. rewrite Hx. simpl.
    destruct (Z.lt_ge_cases (c1 (ActiveDimensions g)) 0) as [H1|H1].
    { unfold cell_centers. simpl. rewrite (linspace_negative _ _ _ H1). reflexivity. }
    destruct (cell_centers_samples g Axis1 H1) as (y & Hy & _).
    rewrite Hy. simpl.
    assert (H2 : c2 (ActiveDimensions g) < 0) by lia.
    unfold cell_centers. simpl. rewrite (linspace_negative _ _ _ H2). reflexivity.
Qed.

End MyFunctionFacts.

(** ** An instance of the numpy interface over the real numbers *)

(** Exact real arithmetic meets the interface [NumPy]: the laws asked of
    [np.linspace] are consistent, and the theorems stated over every instance
    can be run on concrete grids.  The instance is not the arithmetic of
    numpy, which computes in float64: nothing below is stated for the real
    numbers alone, and the instance serves the concrete examples only. *)
Module RealNumPy.

(** [np.linspace] as numpy documents it: [num] samples [start + k * step] with
    [step = (stop - start) / (num - 1)], the last one being [stop] itself. *)
Definition linspace (start stop : R) (num : Z) : option (list R) :=
  if num <? 0 then None
  else Some (List.map
               (fun k : nat =>
                  if (1 <? num) && (Z.of_nat k =? num - 1) then stop
                  else (start + IZR (Z.of_nat k) * ((stop - start) / IZR (num - 1)))%R)
               (seq 0 (Z.to_nat num))).

Lemma linspace_negative (a b : R) (n : Z) : n < 0 -> linspace a b n = None.
Proof. intros Hn. unfold linspace. now apply Z.ltb_lt in Hn as ->. Qed.

Lemma linspace_samples (a b : R) (n : Z) :
  0 <= n -> exists l, linspace a b n = Some l /\ length l = Z.to_nat n.
Proof.
  intros Hn. unfold linspace.
  destruct (Z.ltb_spec n 0) as [Hlt|_]; [lia|].
  eexists. split; [reflexivity|]. now rewrite length_map, length_seq.
Qed.

#[export] Instance real_numpy : NumPy R :=
  {| of_int := IZR;
     of_decimal := Q2R;
     f_add := Rplus;
     f_sub := Rminus;
     f_mul := Rmult;
     f_div := Rdiv;
     f_pow := powerRZ;
     np_sqrt := sqrt;
     np_exp := exp;
     np_sin := sin;
     np_pi := PI;
     np_linspace := linspace;
     Numpy.linspace_negative := linspace_negative;
     Numpy.linspace_samples := linspace_samples |}.

(** Two grids of the same geometry at different places of a hierarchy: the
    unit cube at 2 x 3 x 4 cells. *)
Definition unit_cube (level ident : Z) : grid R :=
  {| LeftEdge := Triple 0%R 0%R 0%R;
     RightEdge := Triple 1%R 1%R 1%R;
     dds := Triple (1 / 2)%R (1 / 3)%R (1 / 4)%R;
     ActiveDimensions := Triple 2 3 4;
     Level := level;
     id := ident |}.

(** A grid object that provides the four attributes, with a negative number
    of cells along its first axis. *)
Definition negative_grid : grid R :=
  {| LeftEdge := Triple 0%R 0%R 0%R;
     RightEdge := Triple 1%R 1%R 1%R;
     dds := Triple (1 / 2)%R (1 / 3)%R (1 / 4)%R;
     ActiveDimensions := Triple (-1) 3 4;
     Level := 0;
     id := 1 |}.

End RealNumPy.
Import RealNumPy.

(** C10.  For every grid whose ActiveDimensions are three positive integers
    (n0, n1, n2), [my_function] returns a rank-3 array of shape (n0, n1, n2).
    With [x], [y], [z] the [n0], [n1], [n2] samples that [np.linspace] gives
    from [LeftEdge[i] + dds[i] / 2] to [RightEdge[i] - dds[i] / 2], its entry
    (i, j, k) is

      exp(-20 * (1.1 * sqrt((x[i] - 0.5)**2 + (y[j] - 0.5)**2 + (z[k] - 0.5)**2) ** 2))
      * (sx(x[i]) * sy(y[j]) * sz(z[k]))

    where [sx(v)] is [0 + 100 sin(2 (v pi 2)) + 50 sin(4 (v pi 2))
    + 30 sin(8 (v pi 2)) + 10 sin(16 (v pi 2)) + 20 sin(32 (v pi 2))], and
    [sy] and [sz] are the same sums with the coefficients (20, 90, 80, 30, 30)
    and (50, 10, 90, 40, 40).  The right-hand sides are written with the
    operations of the numpy interface only. *)
Theorem my_function_shape_and_values {F : Type} {NP : NumPy F}
    (g : grid F) (field_name : string) (n0 n1 n2 : Z) :
  let first_center (left width : F) := f_add left (f_div width (of_int 2)) in
  let last_center (right width : F) := f_sub right (f_div width (of_int 2)) in
  let offset (v : F) := f_pow (f_sub v (of_decimal (5 # 10))) 2 in
  let sine (p c : Z) (v : F) :=
    f_mul (of_int c) (np_sin (f_mul (of_int p) (f_mul (f_mul v np_pi) (of_int 2)))) in
  let modes (k0 k1 k2 k3 k4 : Z) (v : F) :=
    f_add (f_add (f_add (f_add (f_add (of_int 0) (sine 2 k0 v)) (sine 4 k1 v))
                        (sine 8 k2 v)) (sine 16 k3 v)) (sine 32 k4 v) in
  ActiveDimensions g = Triple n0 n1 n2 -> 0 < n0 -> 0 < n1 -> 0 < n2 ->
  exists x y z result,
    np_linspace (first_center (c0 (LeftEdge g)) (c0 (dds g)))
                (last_center (c0 (RightEdge g)) (c0 (dds g))) n0 = Some x /\
    np_linspace (first_center (c1 (LeftEdge g)) (c1 (dds g)))
                (last_center (c1 (RightEdge g)) (c1 (dds g))) n1 = Some y /\
    np_linspace (first_center (c2 (LeftEdge g)) (c2 (dds g)))
                (last_center (c2 (RightEdge g)) (c2 (dds g))) n2 = Some z /\
    length x = Z.to_nat n0 /\ length y = Z.to_nat n1 /\ length z = Z.to_nat n2 /\
    my_function g field_name = Some result /\
    has_shape result (Z.to_nat n0) (Z.to_nat n1) (Z.to_nat n2) /\
    forall i j k, (i < Z.to_nat n0)%nat -> (j < Z.to_nat n1)%nat -> (k < Z.to_nat n2)%nat ->
      exists a b c,
        nth_error x i = Some a /\ nth_error y j = Some b /\ nth_error z k = Some c /\
        get3 result i j k =
          Some (f_mul
                  (np_exp (f_mul (of_int (-20))
                     (f_mul (of_decimal (11 # 10))
                        (f_pow (np_sqrt (f_add (f_add (offset a) (offset b)) (offset c))) 2))))
                  (f_mul (f_mul (modes 100 50 30 10 20 a) (modes 20 90 80 30 30 b))
                         (modes 50 10 90 40 40 c))).
Proof.
  intros first_center last_center offset sine modes Hdims H0 H1 H2.
  destruct (my_function_returns g field_name) as (x & y & z & Hx & Lx & Hy & Ly & Hz & Lz & Hres).
  { unfold well_formed. rewrite Hdims. simpl. lia. }
  unfold cell_centers in Hx, Hy, Hz.
  rewrite Hdims in Hx, Hy, Hz, Lx, Ly, Lz. simpl in Hx, Hy, Hz, Lx, Ly, Lz.
  exists x, y, z, (outer3 cell_value x y z).
  repeat (split; [assumption|]).
  split.
  - rewrite <- Lx, <- Ly, <- Lz. apply outer3_shape.
  - intros i j k Hi Hj Hk.
    destruct (nth_error x i) as [a|] eqn:Ha; [|apply nth_error_None in Ha; lia].
    destruct (nth_error y j) as [b|] eqn:Hb; [|apply nth_error_None in Hb; lia].
    destruct (nth_error z k) as [c|] eqn:Hc; [|apply nth_error_None in Hc; lia].
    exists a, b, c. repeat (split; [reflexivity|]).
    rewrite (outer3_get3 cell_value x y z i j k a b c Ha Hb Hc).
    reflexivity.
Qed.

Lemma my_function_shape_and_values_witness :
  exists result,
    my_function (unit_cube 0 1) "density" = Some result /\
    has_shape result 2 3 4 /\
    get3 result 1 2 3 =
      Some (exp (-20 * (Q2R (11 # 10)
              * powerRZ (sqrt (powerRZ (1 - 1 / 2 / 2 - Q2R (5 # 10)) 2
                               + powerRZ (1 - 1 / 3 / 2 - Q2R (5 # 10)) 2
                               + powerRZ (1 - 1 / 4 / 2 - Q2R (5 # 10)) 2)) 2))
            * ((0 + 100 * sin (2 * ((1 - 1 / 2 / 2) * PI * 2)) + 50 * sin (4 * ((1 - 1 / 2 / 2) * PI * 2))
                + 30 * sin (8 * ((1 - 1 / 2 / 2) * PI * 2)) + 10 * sin (16 * ((1 - 1 / 2 / 2) * PI * 2))
                + 20 * sin (32 * ((1 - 1 / 2 / 2) * PI * 2)))
               * (0 + 20 * sin (2 * ((1 - 1 / 3 / 2) * PI * 2)) + 90 * sin (4 * ((1 - 1 / 3 / 2) * PI * 2))
                  + 80 * sin (8 * ((1 - 1 / 3 / 2) * PI * 2)) + 30 * sin (16 * ((1 - 1 / 3 / 2) * PI * 2))
                  + 30 * sin (32 * ((1 - 1 / 3 / 2) * PI * 2)))
               * (0 + 50 * sin (2 * ((1 - 1 / 4 / 2) * PI * 2)) + 10 * sin (4 * ((1 - 1 / 4 / 2) * PI * 2))
                  + 90 * sin (8 * ((1 - 1 / 4 / 2) * PI * 2)) + 40 * sin (16 * ((1 - 1 / 4 / 2) * PI * 2))
                  + 40 * sin (32 * ((1 - 1 / 4 / 2) * PI * 2)))))%R.
Proof.
  destruct (@my_function_shape_and_values R real_numpy (unit_cube 0 1) "density" 2 3 4
              eq_refl ltac:(lia) ltac:(lia) ltac:(lia))
    as (x & y & z & result & Hx & Hy & Hz & _ & _ & _ & Hres & Hshape & Hentry).
  exists result. split; [exact Hres|]. split; [exact Hshape|].
  destruct (Hentry 1%nat 2%nat 3%nat ltac:(simpl; lia) ltac:(simpl; lia) ltac:(simpl; lia))
    as (a' & b' & c' & Ha & Hb & Hc & ->).
  injection Hx as <-. injection Hy as <-. injection Hz as <-.
  injection Ha as <-. injection Hb as <-. injection Hc as <-.
  reflexivity.
Defined.

(** C4.  Two grids with equal LeftEdge, RightEdge, dds and ActiveDimensions
    give equal results, whatever their other attributes and whatever the two
    field names. *)
Theorem my_function_depends_on_geometry_only {F : Type} {NP : NumPy F}
    (g1 g2 : grid F) (name1 name2 : string) :
  LeftEdge g1 = LeftEdge g2 ->
  RightEdge g1 = RightEdge g2 ->
  dds g1 = dds g2 ->
  ActiveDimensions g1 = ActiveDimensions g2 ->
  my_function g1 name1 = my_function g2 name2.
Proof.
  intros Hle Hre Hdds Hdims.
  unfold my_function, cell_centers.
  rewrite Hle, Hre, Hdds, Hdims. reflexivity.
Qed.

Lemma my_function_depends_on_geometry_only_witness :
  unit_cube 0 1 <> unit_cube 3 17 /\
  my_function (unit_cube 0 1) "density" = my_function (unit_cube 3 17) "temperature".
Proof.
  split; [discriminate|].
  apply (@my_function_depends_on_geometry_only R real_numpy); reflexivity.
Defined.

(** ** [showme] *)

Lemma SFcompare_refl (x : spec_float) : is_nan x = false -> SFcompare x x = Some Datatypes.Eq.
Proof.
  destruct x as [s|s| |s m e]; simpl; intros Hx; try discriminate.
  - reflexivity.
  - now destruct s.
  - destruct s; rewrite Z.compare_refl;
      change (Pos.compare_cont Datatypes.Eq m m) with (Pos.compare m m);
      now rewrite Pos.compare_refl.
Qed.

(** [x != x] holds exactly of the NaN. *)
Lemma ne_self_is_nan (x : spec_float) : ne x x = is_nan x.
Proof.
  unfold ne, SFeqb. destruct (is_nan x) eqn:Hx.
  - destruct x; try discriminate. reflexivity.
  - now rewrite SFcompare_refl.
Qed.

Lemma zip_with_self {A B : Type} (f : A -> A -> B) (l : list A) :
  zip_with f l l = List.map (fun x => f x x) l.
Proof. induction l as [|x l IH]; simpl; [reflexivity|]. now rewrite IH. Qed.

Lemma zip_with_map_self {A M B : Type} (h : M -> A -> B) (m : A -> M) (l : list A) :
  zip_with h (List.map m l) l = List.map (fun x => h (m x) x) l.
Proof. induction l as [|x l IH]; simpl; [reflexivity|]. now rewrite IH. Qed.

Lemma ne_self_map3 (im : array3 spec_float) : ne_self im = map3 is_nan im.
Proof.
  unfold ne_self, map3. rewrite zip_with_self. apply map_ext. intros plane.
  rewrite zip_with_self. apply map_ext. intros row.
  rewrite zip_with_self. apply map_ext. apply ne_self_is_nan.
Qed.

Lemma screen_nans_map3 (im : array3 spec_float) : screen_nans im = map3 screen_entry im.
Proof.
  unfold screen_nans, assign_where. rewrite ne_self_map3. unfold map3.
  rewrite zip_with_map_self. apply map_ext. intros plane.
  rewrite zip_with_map_self. apply map_ext. intros row.
  now rewrite zip_with_map_self.
Qed.

Lemma get3_map3 {A B : Type} (f : A -> B) (a : array3 A) (i j k : nat) :
  get3 (map3 f a) i j k = option_map f (get3 a i j k).
Proof.
  unfold get3, map3. rewrite nth_error_map.
  destruct (nth_error a i) as [plane|]; simpl; [|reflexivity].
  rewrite nth_error_map.
  destruct (nth_error plane j) as [row|]; simpl; [|reflexivity].
  apply nth_error_map.
Qed.

Lemma screen_entry_not_nan (x : spec_float) : is_nan (screen_entry x) = false.
Proof. unfold screen_entry. destruct (is_nan x) eqn:Hx; [reflexivity | exact Hx]. Qed.



(** ** [grid_data] *)

Section GridDataFacts.
Context {F : Type} {NP : NumPy F}.

(** The loop invariant: after the entries [done], [grid_data] holds their
    descriptors, in order, behind what it held before. *)
Lemma grid_data_loop_invariant (done : list (@index_entry F)) (acc : list (gmap string value)) :
  fold_left (fun grid_data e => grid_data ++ [descriptor e]) done acc
  = acc ++ List.map descriptor done.
Proof.
  revert acc. induction done as [|e done IH]; intros acc; simpl.
  - now rewrite app_nil_r.
  - rewrite IH, <- app_assoc. reflexivity.
Qed.

Lemma grid_data_map (index : list (@index_entry F)) :
  grid_data index = List.map descriptor index.
Proof. unfold grid_data. now rewrite grid_data_loop_invariant. Qed.

Lemma descriptor_density (e : @index_entry F) :
  descriptor e !! "density" = Some (PyFunction my_function).
Proof. destruct e as [[[level le] re] dims]. simpl. apply lookup_insert_eq. Qed.

End GridDataFacts.

(** C5.  [grid_data] holds one dictionary per tuple of [_amr_grid_index], in
    the order of the tuples, every iteration appending one; each dictionary
    has exactly the keys "level", "left_edge", "right_edge", "dimensions" and
    "density", the first four bound to the components of the tuple in order. *)
Theorem grid_descriptors_have_five_keys {F : Type} {NP : NumPy F} :
  (forall index : list (@index_entry F), grid_data index = List.map descriptor index) /\
  (forall (done : list (@index_entry F)) e,
      grid_data (done ++ [e]) = grid_data done ++ [descriptor e]) /\
  (forall level le re dims : @value F,
      let d := descriptor (level, le, re, dims) in
      dom d = {[ "level"; "left_edge"; "right_edge"; "dimensions"; "density" ]} /\
      size d = 5%nat /\
      d !! "level" = Some level /\
      d !! "left_edge" = Some le /\
      d !! "right_edge" = Some re /\
      d !! "dimensions" = Some dims /\
      d !! "density" = Some (PyFunction my_function)).
Proof.
  split; [apply grid_data_map|]. split.
  - intros done e. rewrite !grid_data_map, map_app. reflexivity.
  - intros level le re dims. cbv zeta.
    assert (Hdom : dom (descriptor (level, le, re, dims))
                   = ({[ "level"; "left_edge"; "right_edge"; "dimensions"; "density" ]}
                      : gset string)).
    { simpl. rewrite !dom_insert_L, dom_empty_L. set_solver. }
    split; [exact Hdom|]. split.
    + rewrite <- (size_dom (descriptor (level, le, re, dims))), Hdom. vm_compute. reflexivity.
    + simpl. repeat split; simplify_map_eq; reflexivity.
Qed.

(** C2.  For every tuple of [_amr_grid_index] the dictionary appended to
    [grid_data] binds "density" to the function [my_function] itself, not to
    an array; and no statement of the material calls [my_function], so no
    field array exists before the library calls it. *)
Theorem density_is_supplied_as_callable {F : Type} {NP : NumPy F}
    (index : list (@index_entry F)) :
  (forall e, In e index -> In (descriptor e) (grid_data index)) /\
  (forall d, In d (grid_data index) ->
     d !! "density" = Some (PyFunction my_function) /\
     forall a, d !! "density" <> Some (PyArray a)) /\
  (forall nb c, In nb notebooks -> In c (sites nb) -> callee c <> Name "my_function") /\
  (forall d, In d (appended_dicts load_via_functions "grid_data") ->
     In (StrLit "density", Name "my_function") d).
Proof.
  rewrite grid_data_map.
  split; [|split; [|split]].
  - intros e He. now apply in_map.
  - intros d Hd. apply in_map_iff in Hd as (e & <- & _).
    rewrite descriptor_density. split; [reflexivity | discriminate].
  - intros nb c Hnb Hc Hcallee.
    assert (Hcheck : forallb (fun nb => forallb (fun c =>
              match callee c with Name n => negb (String.eqb n "my_function") | _ => true end)
              (sites nb)) notebooks = true) by (vm_compute; reflexivity).
    rewrite forallb_forall in Hcheck. specialize (Hcheck nb Hnb).
    rewrite forallb_forall in Hcheck. specialize (Hcheck c Hc).
    rewrite Hcallee in Hcheck. discriminate.
  - intros d Hd. vm_compute in Hd. destruct Hd as [<-|[]].
    do 4 right. left. reflexivity.
Qed.

Lemma density_is_supplied_as_callable_witness :
  let index := [ (PyInt 0, PyList [PyFloat 0%R], PyList [PyFloat 1%R], PyList [PyInt 32]);
                 (PyInt 1, PyList [PyFloat 0%R], PyList [PyFloat (1 / 2)%R], PyList [PyInt 16]) ] in
  Forall (fun d : gmap string value => d !! "density" = Some (PyFunction my_function))
         (grid_data index).
Proof.
  intros index. apply List.Forall_forall. intros d Hd.
  destruct (@density_is_supplied_as_callable R real_numpy index) as (_ & Hdensity & _).
  exact (proj1 (Hdensity d Hd)).
Defined.

(** ** Statements and call sites *)

Lemma mem_In (x : string) (l : list string) : mem x l = true <-> In x l.
Proof.
  unfold mem. rewrite existsb_exists. split.
  - intros (y & Hy & Heq). apply String.eqb_eq in Heq. now subst.
  - intros Hx. exists x. split; [assumption | apply String.eqb_refl].
Qed.

(** A check that passes on every statement of every notebook holds of each. *)
Lemma every_statement (P : notebook -> located -> bool) :
  forallb (fun nb => forallb (P nb) (statements nb)) notebooks = true ->
  forall nb s, In nb notebooks -> In s (statements nb) -> P nb s = true.
Proof.
  intros Hall nb s Hnb Hs.
  rewrite forallb_forall in Hall. specialize (Hall nb Hnb).
  rewrite forallb_forall in Hall. now apply Hall.
Qed.

(** On a writeable array a call of [showme] leaves the array that [showme]
    leaves, and returns exactly when [showme] has a value. *)
Lemma call_showme_writeable {bitmap picture : Type}
    (write_bitmap : array3 spec_float -> option bitmap) (Image : bitmap -> option picture)
    (a : array3 spec_float) :
  let r := call_showme bitmap picture write_bitmap Image (Ndarray a true) in
  entries (fst r) = fst (showme bitmap picture write_bitmap Image a) /\
  match snd r with
  | Returned p => snd (showme bitmap picture write_bitmap Image a) = Some p
  | Raised _ => snd (showme bitmap picture write_bitmap Image a) = None
  end.
Proof.
  unfold call_showme, screen_in_place, showme. simpl.
  destruct (write_bitmap (screen_nans a)) as [imb|]; [|now split].
  destruct (Image imb) as [p|]; now split.
Qed.

(** The claim C9 as the specification states it fails: [my_function] raises
    on a grid whose ActiveDimensions hold a negative entry, since [np.linspace]
    refuses a negative number of samples. *)
Lemma never_raise_fails : ~ never_raise.
Proof.
  intros (_ & Hfield & _).
  apply (Hfield R real_numpy negative_grid "density").
  apply my_function_raises. left. simpl. lia.
Qed.

(** C9, amended.  The material holds no statement that raises, catches,
    asserts or branches, so no error is handled; but the two functions it
    defines can raise.  [my_function] raises exactly on the grids that have a
    negative entry in their ActiveDimensions.  A call of [showme] raises
    exactly when its array is not writeable, or [yt.write_bitmap] raises on
    the screened array, or [Image] raises on the bitmap.  On an array that is
    not writeable it ends at line 31 and leaves the array as it was; on a
    writeable array it leaves the array screened, with no NaN in it, also
    when a library call raises afterwards, and it returns what [Image]
    returns. *)
Theorem no_error_handling_but_raises :
  (forall nb s, In nb notebooks -> In s (statements nb) ->
     anywhere is_error_handling (node s) = false /\ anywhere is_branch (node s) = false) /\
  (forall (F : Type) (NP : NumPy F) (g : grid F) (field_name : string),
     my_function g field_name = None <->
     (c0 (ActiveDimensions g) < 0 \/ c1 (ActiveDimensions g) < 0 \/
      c2 (ActiveDimensions g) < 0)) /\
  (forall (bitmap picture : Type) (write_bitmap : array3 spec_float -> option bitmap)
          (Image : bitmap -> option picture) (im : ndarray),
     let r := call_showme bitmap picture write_bitmap Image im in
     (raises (snd r) = true <->
        writeable im = false \/
        write_bitmap (screen_nans (entries im)) = None \/
        exists imb, write_bitmap (screen_nans (entries im)) = Some imb /\ Image imb = None) /\
     (writeable im = false -> r = (im, Raised 31)) /\
     (writeable im = true ->
        fst r = Ndarray (screen_nans (entries im)) true /\
        (forall i j k y, get3 (entries (fst r)) i j k = Some y -> is_nan y = false) /\
        (write_bitmap (screen_nans (entries im)) = None -> snd r = Raised 34) /\
        (forall imb, write_bitmap (screen_nans (entries im)) = Some imb ->
           snd r = match Image imb with Some p => Returned p | None => Raised 35 end))).
Proof.
  split; [|split].
  - intros nb s Hnb Hs.
    pose proof (every_statement
      (fun _ s => negb (anywhere is_error_handling (node s)) &&
                  negb (anywhere is_branch (node s)))) as Hcheck.
    specialize (Hcheck ltac:(vm_compute; reflexivity) nb s Hnb Hs).
    apply andb_true_iff in Hcheck as [He Hb].
    split; now apply negb_true_iff.
  - intros F NP g field_name. apply my_function_raises.
  - intros bitmap picture write_bitmap Image [a w]. cbv zeta.
    unfold call_showme, screen_in_place.
    destruct w; simpl.
    + split; [|split; [discriminate|intros _]].
      * destruct (write_bitmap (screen_nans a)) as [imb|] eqn:Hw.
        -- destruct (Image imb) as [p|] eqn:Hi; unfold raises; cbn [snd]; split.
           ++ discriminate.
           ++ intros [Hf|[Hf|(imb' & Heq & Hf)]]; congruence.
           ++ intros _. right. right. now exists imb.
           ++ reflexivity.
        -- unfold raises; cbn [snd]. split; [intros _; right; now left | reflexivity].
      * assert (Hfst : fst (match write_bitmap (screen_nans a) with
                            | Some imb =>
                                match Image imb with
                                | Some p => (Ndarray (screen_nans a) true, Returned p)
                                | None => (Ndarray (screen_nans a) true, Raised 35)
                                end
                            | None => (Ndarray (screen_nans a) true, @Raised picture 34)
                            end) = Ndarray (screen_nans a) true).
        { destruct (write_bitmap (screen_nans a)) as [imb|]; [|reflexivity].
          now destruct (Image imb). }
        rewrite Hfst. simpl. split; [reflexivity|]. split; [|split].
        -- intros i j k y. rewrite screen_nans_map3, get3_map3.
           destruct (get3 a i j k) as [x|]; simpl; [|discriminate].
           intros [= <-]. apply screen_entry_not_nan.
        -- now intros ->.
        -- intros imb ->. now destruct (Image imb).
    + split; [|split; [reflexivity | discriminate]].
      unfold raises; cbn [snd]. split; [now left | reflexivity].
Qed.

Lemma no_error_handling_but_raises_witness :
  my_function negative_grid "density" = None /\
  call_showme unit unit (fun _ => Some tt) (fun _ => Some tt) (Ndarray sample_image false)
    = (Ndarray sample_image false, Raised 31) /\
  snd (call_showme unit unit (fun _ => Some tt) (fun _ => Some tt) (Ndarray sample_image true))
    = Returned tt.
Proof.
  destruct no_error_handling_but_raises as (_ & Hfield & Hshow).
  split; [|split].
  - apply (Hfield R real_numpy). left. simpl. lia.
  - pose proof (Hshow unit unit (fun _ => Some tt) (fun _ => Some tt)
                  (Ndarray sample_image false)) as (_ & Hread & _).
    apply Hread. reflexivity.
  - pose proof (Hshow unit unit (fun _ => Some tt) (fun _ => Some tt)
                  (Ndarray sample_image true)) as (_ & _ & Hwrite).
    destruct (Hwrite eq_refl) as (_ & _ & _ & Hreturn).
    apply (Hreturn tt). reflexivity.
Defined.

(** The claim C1 as the specification states it fails: line 29 defines a
    function. *)
Lemma direct_invocations_only_fails : ~ direct_invocations_only.
Proof.
  intros Hclaim.
  destruct (Hclaim tfh_tutorial (At 29 showme_def)) as (Hdirect & _).
  - left. reflexivity.
  - apply (nth_error_In _ 4). reflexivity.
  - discriminate Hdirect.
Qed.

(** C1, amended.  The statements that are not direct uses of the library are
    the definition of [showme] (line 29) and its two calls, the definition of
    [my_function] (line 697), the loop that fills [grid_data] (line 746) and
    the array arithmetic of the one- and two-dimensional demonstrations; the
    OWLS notebook has none.  The two definitions and the one loop, a [for]
    loop, are the only ones; there is no [while] loop and no class, and no
    statement branches or handles errors. *)
Theorem own_logic_of_the_material :
  own_logic tfh_tutorial = [29; 173; 229]%nat /\
  own_logic owls_examples = [] /\
  own_logic load_via_functions = [596; 597; 616; 642; 649; 650; 652; 670; 697; 746]%nat /\
  List.map (lines_with is_function_def) notebooks = [[29%nat]; []; [697%nat]] /\
  List.map defined notebooks = [["showme"]; []; ["my_function"]] /\
  List.map (lines_with is_loop) notebooks = [[]; []; [746%nat]] /\
  List.map (lines_with is_branch) notebooks = [[]; []; []] /\
  List.map (lines_with is_error_handling) notebooks = [[]; []; []] /\
  List.map (lines_with is_while) notebooks = [[]; []; []] /\
  List.map (lines_with is_class_def) notebooks = [[]; []; []].
Proof. repeat split; vm_compute; reflexivity. Qed.

(** The claim C7 as the specification states it fails: [showme] calls
    [yt.write_bitmap]. *)
Lemma only_listed_api_fails : ~ only_listed_api.
Proof.
  intros Hclaim.
  assert (Hin : In "write_bitmap" listed_api).
  { apply (Hclaim tfh_tutorial "yt").
    - left. reflexivity.
    - apply (nth_error_In _ 0). reflexivity. }
  apply mem_In in Hin. discriminate Hin.
Qed.

(** C7, amended.  Every function of the yt package that the material calls is
    one of the six listed or [write_bitmap], and each of these seven is
    called; every other external function called is one of numpy's logspace,
    sin, exp, sqrt, linspace and array, matplotlib.pyplot's subplots and
    pcolormesh, and IPython's Image. *)
Theorem call_surface_of_the_material :
  (forall nb m n, In nb notebooks -> In (m, n) (external_calls nb) ->
     (package m = "yt" -> In n (listed_api ++ ["write_bitmap"])) /\
     (package m <> "yt" -> In (m, n) other_libraries)) /\
  (forall n, In n (listed_api ++ ["write_bitmap"]) ->
     exists nb m, In nb notebooks /\ In (m, n) (external_calls nb) /\ package m = "yt").
Proof.
  split.
  - intros nb m n Hnb Hcall.
    assert (Hall : forallb (fun nb => forallb on_call_surface (external_calls nb)) notebooks
                   = true) by (vm_compute; reflexivity).
    rewrite forallb_forall in Hall. specialize (Hall nb Hnb).
    rewrite forallb_forall in Hall. specialize (Hall (m, n) Hcall).
    unfold on_call_surface in Hall. cbn [fst snd] in Hall.
    destruct (String.eqb_spec (package m) "yt") as [Hyt|Hother].
    + split; [intros _; now apply mem_In | congruence].
    + split; [congruence|]. intros _.
      apply existsb_exists in Hall as ([m' n'] & Hin & Heq).
      unfold pair_eqb in Heq. simpl in Heq.
      apply andb_true_iff in Heq as [Hm Hn].
      apply String.eqb_eq in Hm, Hn. now subst.
  - intros n Hn. simpl in Hn.
    destruct Hn as [<-|[<-|[<-|[<-|[<-|[<-|[<-|[]]]]]]]].
    + exists tfh_tutorial, "yt". split; [now left|]. split; [|reflexivity].
      apply (nth_error_In _ 2). reflexivity.
    + exists owls_examples, "yt". split; [right; now left|]. split; [|reflexivity].
      apply (nth_error_In _ 0). reflexivity.
    + exists load_via_functions, "yt". split; [right; right; now left|]. split; [|reflexivity].
      apply (nth_error_In _ 16). reflexivity.
    + exists owls_examples, "yt". split; [right; now left|]. split; [|reflexivity].
      apply (nth_error_In _ 1). reflexivity.
    + exists tfh_tutorial, "yt.visualization.volume_rendering.transfer_function_helper".
      split; [now left|]. split; [|reflexivity].
      apply (nth_error_In _ 3). reflexivity.
    + exists tfh_tutorial, "yt". split; [now left|]. split; [|reflexivity].
      apply (nth_error_In _ 7). reflexivity.
    + exists tfh_tutorial, "yt". split; [now left|]. split; [|reflexivity].
      apply (nth_error_In _ 0). reflexivity.
Qed.

Lemma call_surface_of_the_material_witness :
  In "write_bitmap" (listed_api ++ ["write_bitmap"]) /\
  In ("numpy", "linspace") other_libraries.
Proof.
  destruct call_surface_of_the_material as (Hsurface & _).
  split.
  - apply (Hsurface tfh_tutorial "yt" "write_bitmap").
    + left. reflexivity.
    + apply (nth_error_In _ 0). reflexivity.
    + reflexivity.
  - apply (Hsurface load_via_functions "numpy" "linspace").
    + right. right. left. reflexivity.
    + apply (nth_error_In _ 9). reflexivity.
    + vm_compute. discriminate.
Defined.

(** ** The order of the pipeline *)










(** ** The call surface the notebooks demonstrate *)

(** Finds a call site in the computed list of a notebook's call sites. *)
Ltac find_site := vm_compute; repeat (first [left; reflexivity | right]).

(** C8.  The material loads a dataset from a path on disk, loads one from the
    sample repository by name, builds an adaptive-mesh dataset from
    [grid_data] whose "density" entries are a function the notebook defines,
    selects the region of all data, builds a transfer function and renders
    with it, and creates projection plots; each of the yt functions named is
    the library's, reached through the notebook's imports. *)
Theorem call_surface_is_demonstrated :
  (exists path, In (Site (yt "load") [StrLit path]) (sites tfh_tutorial)) /\
  (exists sample, In (Site (yt "load_sample") [StrLit sample]) (sites owls_examples)) /\
  (exists rest,
     In (Site (yt "load_amr_grids") (Name "grid_data" :: rest)) (sites load_via_functions) /\
     exists d f,
       In d (appended_dicts load_via_functions "grid_data") /\
       In (StrLit "density", Name f) d /\
       resolve load_via_functions (Name f) = Local f) /\
  In (Site (Attribute (Name "ds") "all_data") []) (sites owls_examples) /\
  In (Site (Attribute (Name "tfh") "build_transfer_function") []) (sites tfh_tutorial) /\
  In (Site (Attribute (Name "source") "set_transfer_function") [Attribute (Name "tfh") "tf"])
     (sites tfh_tutorial) /\
  In (Site (Attribute (Name "sc") "render") []) (sites tfh_tutorial) /\
  (exists args, In (Site (yt "volume_render") args) (sites tfh_tutorial)) /\
  (exists args, In (Site (yt "ProjectionPlot") args) (sites owls_examples)) /\
  resolve tfh_tutorial (yt "load") = External "yt" "load" /\
  resolve owls_examples (yt "load_sample") = External "yt" "load_sample" /\
  resolve load_via_functions (yt "load_amr_grids") = External "yt" "load_amr_grids" /\
  resolve tfh_tutorial (yt "volume_render") = External "yt" "volume_render" /\
  resolve owls_examples (yt "ProjectionPlot") = External "yt" "ProjectionPlot".
Proof.
  split; [eexists; find_site|].
  split; [eexists; find_site|].
  split.
  { eexists. split; [find_site|].
    exists [ (StrLit "level", Name "level"); (StrLit "left_edge", Name "le");
             (StrLit "right_edge", Name "re"); (StrLit "dimensions", Name "dims");
             (StrLit "density", Name "my_function") ], "my_function".
    split; [find_site|]. split; [find_site | vm_compute; reflexivity]. }
  split; [find_site|].
  split; [find_site|].
  split; [find_site|].
  split; [find_site|].
  split; [eexists; find_site|].
  split; [eexists; find_site|].
  repeat split; vm_compute; reflexivity.
Qed.

(** * Further properties of the notebooks' own code *)

Import Cells.

(** ** [my_function]: when it raises, and how many values it returns *)

Section MyFunctionEdges.
Context {F : Type} {NP : NumPy F}.

Lemma has_shape_size3 {A : Type} (a : array3 A) (n0 n1 n2 : nat) :
  has_shape a n0 n1 n2 -> size3 a = (n0 * n1 * n2)%nat.
Proof.
  intros [Hlen Hplanes]. subst n0. unfold size3.
  induction Hplanes as [|plane a [Hp Hrows] _ IH]; simpl; [reflexivity|].
  rewrite IH.
  assert (Hplane : list_sum (List.map (@length A) plane) = (n1 * n2)%nat).
  { subst n1. clear IH.
    induction Hrows as [|row plane Hrow _ IHrows]; simpl; [reflexivity|].
    rewrite IHrows, Hrow. reflexivity. }
  rewrite Hplane. lia.
Qed.

(** X1.  [my_function] raises exactly on the grids that have a negative dimension:
    the only failure it can meet is [np.linspace] refusing a negative number
    of samples; the broadcasts and the subscripts that follow always fit. *)
Theorem my_function_raises_iff_negative_dimension (g : grid F) (field_name : string) :
  my_function g field_name = None <->
  (c0 (ActiveDimensions g) < 0 \/ c1 (ActiveDimensions g) < 0 \/ c2 (ActiveDimensions g) < 0).
Proof.
  split.
  - intros Hnone.
    destruct (Z.lt_ge_cases (c0 (ActiveDimensions g)) 0) as [H0|H0]; [now left|].
    destruct (Z.lt_ge_cases (c1 (ActiveDimensions g)) 0) as [H1|H1]; [right; now left|].
    destruct (Z.lt_ge_cases (c2 (ActiveDimensions g)) 0) as [H2|H2]; [right; now right|].
    destruct (my_function_returns g field_name (conj H0 (conj H1 H2)))
      as (x & y & z & _ & _ & _ & _ & _ & _ & Hres).
    rewrite Hres in Hnone. discriminate.
  - intros Hneg.
    destruct (Z.lt_ge_cases (c0 (ActiveDimensions g)) 0) as [H0|H0];
      [now apply my_function_negative_dimension|].
    destruct (cell_centers_samples g Axis0 H0) as (x & Hx & _).
    unfold my_function. rewrite Hx. simpl.
    destruct (Z.lt_ge_cases (c1 (ActiveDimensions g)) 0) as [H1|H1].
    { unfold cell_centers. simpl. rewrite (Numpy.linspace_negative _ _ _ H1). reflexivity. }
    destruct (cell_centers_samples g Axis1 H1) as (y & Hy & _).
    rewrite Hy. simpl.
    assert (H2 : c2 (ActiveDimensions g) < 0) by lia.
    unfold cell_centers. simpl. rewrite (Numpy.linspace_negative _ _ _ H2). reflexivity.
Qed.

(** X2.  On a grid without a negative dimension [my_function] returns one value per
    cell, n0 * n1 * n2 of them; a grid with no cell along some axis gets an
    array without entries, not an error. *)
Theorem my_function_cell_count (g : grid F) (field_name : string) :
  well_formed g ->
  exists result,
    my_function g field_name = Some result /\
    has_shape result (Z.to_nat (c0 (ActiveDimensions g)))
                     (Z.to_nat (c1 (ActiveDimensions g)))
                     (Z.to_nat (c2 (ActiveDimensions g))) /\
    size3 result = Z.to_nat (c0 (ActiveDimensions g) * c1 (ActiveDimensions g)
                             * c2 (ActiveDimensions g)).
Proof.
  intros Hwf. pose proof Hwf as (H0 & H1 & H2).
  destruct (my_function_returns g field_name Hwf)
    as (x & y & z & _ & Lx & _ & Ly & _ & Lz & Hres).
  exists (outer3 cell_value x y z). split; [exact Hres|].
  assert (Hshape : has_shape (outer3 cell_value x y z)
                     (Z.to_nat (c0 (ActiveDimensions g)))
                     (Z.to_nat (c1 (ActiveDimensions g)))
                     (Z.to_nat (c2 (ActiveDimensions g)))).
  { rewrite <- Lx, <- Ly, <- Lz. apply outer3_shape. }
  split; [exact Hshape|].
  rewrite (has_shape_size3 _ _ _ _ Hshape). lia.
Qed.

(** X3.  Python's [sum] over no term is the integer 0, which cannot be subscripted
    as line 725 does; over at least one coefficient it is an array with one
    entry per sample. *)
Theorem sum_of_modes_integer_or_array (coefficients : list Z) (v : list F) :
  match coefficients with
  | [] => sum_of_modes coefficients v = Some (Number 0) /\ as_array (@Number F 0) = None
  | _ :: _ =>
      exists a, sum_of_modes coefficients v = Some (Array a) /\
                as_array (Array a) = Some a /\ length a = length v
  end.
Proof.
  destruct coefficients as [|c rest].
  - split; reflexivity.
  - exists (List.map (mode_sum (c :: rest)) v).
    split; [now apply sum_of_modes_array|]. split; [reflexivity | apply length_map].
Qed.

End MyFunctionEdges.

(** A slab of the unit cube with no cell along its second axis. *)
Definition empty_slab : grid R :=
  {| LeftEdge := Triple 0%R 0%R 0%R;
     RightEdge := Triple 1%R 0%R 1%R;
     dds := Triple (1 / 2)%R 1%R (1 / 4)%R;
     ActiveDimensions := Triple 2 0 4;
     Level := 0;
     id := 0 |}.

Lemma my_function_cell_count_witness :
  exists result,
    my_function empty_slab "density" = Some result /\
    has_shape result 2 0 4 /\
    size3 result = 0%nat.
Proof.
  apply (@my_function_cell_count R real_numpy empty_slab "density").
  unfold well_formed. simpl. lia.
Defined.

(** ** [showme]: calling it again, and calling it on a view *)

Import Views.

Lemma map3_map3 {A B C : Type} (f : A -> B) (g : B -> C) (a : array3 A) :
  map3 g (map3 f a) = map3 (fun x => g (f x)) a.
Proof.
  unfold map3. rewrite map_map. apply map_ext. intros plane.
  rewrite map_map. apply map_ext. intros row. apply map_map.
Qed.

Lemma screen_entry_idempotent (x : spec_float) : screen_entry (screen_entry x) = screen_entry x.
Proof. unfold screen_entry at 1. now rewrite screen_entry_not_nan. Qed.

(** X4.  Calling [showme] on the array a first call left behind changes nothing
    more and returns the same picture: the first call already wrote 0.0 over
    every NaN, so a NaN pixel and a 0.0 pixel are displayed alike. *)
Theorem showme_twice {bitmap picture : Type}
    (write_bitmap : array3 spec_float -> option bitmap) (Image : bitmap -> option picture)
    (im : array3 spec_float) :
  let once := showme bitmap picture write_bitmap Image im in
  showme bitmap picture write_bitmap Image (fst once) = once.
Proof.
  cbv zeta. unfold showme. cbn [fst].
  assert (Hsame : screen_nans (screen_nans im) = screen_nans im).
  { rewrite !screen_nans_map3, map3_map3. unfold map3.
    apply map_ext. intros plane. apply map_ext. intros row.
    apply map_ext. apply screen_entry_idempotent. }
  rewrite Hsame. reflexivity.
Qed.




(** ** Names are bound before they are read *)

Import Names.

(** X6.  Run from its first cell to its last, no cell of a notebook raises a
    NameError, and a call of [showme] or of [my_function] made once the
    notebook has run finds every name its body looks up.  The order of the
    cells matters.  Without its first cell every later cell of the tutorial
    ends in a NameError at its first statement: the cells stop at [yt],
    [TransferFunctionHelper], [tfh] and [source], before a call of [showme]
    is reached.  Run from its last cell to its first, the third notebook
    raises a NameError in every cell but the two that only import and
    define.  Each error is given with the line of the top-level statement
    that raises it. *)
Theorem names_are_bound_before_use :
  Forall (fun nb => name_errors (cells nb) = []) notebooks /\
  List.map fst (functions (fst (run_cells (cells tfh_tutorial)))) = ["showme"] /\
  name_error (fst (run_cells (cells tfh_tutorial))) [Enter "showme"] = None /\
  List.map fst (functions (fst (run_cells (cells load_via_functions)))) = ["my_function"] /\
  name_error (fst (run_cells (cells load_via_functions))) [Enter "my_function"] = None /\
  name_errors (tl (cells tfh_tutorial)) =
    [(53%nat, "yt"); (71%nat, "TransferFunctionHelper"); (90%nat, "TransferFunctionHelper");
     (114%nat, "tfh"); (132%nat, "TransferFunctionHelper"); (167%nat, "yt");
     (191%nat, "TransferFunctionHelper"); (226%nat, "source")] /\
  name_errors (rev (cells load_via_functions)) =
    [(794%nat, "p"); (776%nat, "ds"); (746%nat, "my_function"); (670%nat, "plt");
     (637%nat, "np"); (615%nat, "plt"); (594%nat, "np")].
Proof.
  split; [|split; [|split; [|split; [|split; [|split]]]]].
  - unfold notebooks. repeat (constructor; [vm_compute; reflexivity|]). constructor.
  - vm_compute. reflexivity.
  - vm_compute. reflexivity.
  - vm_compute. reflexivity.
  - vm_compute. reflexivity.
  - vm_compute. reflexivity.
  - vm_compute. reflexivity.
Qed.

(** ** Coarse sampling (notebook 3, line 670) *)

Import Sampling.

Section SamplingFacts.
Context {A : Type}.

Lemma nth_error_take_every (m skip : nat) (l : list A) (i : nat) :
  nth_error (take_every (S m) skip l) i = nth_error l (skip + i * S m).
Proof.
  revert skip i. induction l as [|x l IH]; intros skip i.
  - simpl. now rewrite !nth_error_nil.
  - destruct skip as [|skip]; simpl.
    + destruct i as [|i]; simpl; [reflexivity|].
      rewrite Nat.sub_0_r, IH. reflexivity.
    + apply IH.
Qed.

Lemma length_take_every (m skip : nat) (l : list A) :
  length (take_every (S m) skip l) = ((length l + m - skip) / S m)%nat.
Proof.
  revert skip. induction l as [|x l IH]; intros skip.
  - cbn [take_every length]. symmetry. apply Nat.div_small. lia.
  - destruct skip as [|skip]; cbn [take_every length].
    + rewrite IH. transitivity (S (length l / S m))%nat.
      * f_equal. f_equal. lia.
      * replace (S (length l) + m - 0)%nat with (length l + 1 * S m)%nat by lia.
        rewrite Nat.div_add by lia. lia.
    + rewrite IH. reflexivity.
Qed.

Lemma strided_positive (m : nat) (l : list A) : strided (S m) l = Some (take_every (S m) 0 l).
Proof. reflexivity. Qed.

End SamplingFacts.

Section Sampling2Facts.
Context {A : Type}.

Lemma strided2_positive (m : nat) (a : array2 A) :
  strided2 (S m) a = Some (List.map (take_every (S m) 0) (take_every (S m) 0 a)).
Proof.
  unfold strided2. change (strided (S m) a) with (Some (take_every (S m) 0 a)).
  apply mapM_total. intros row. apply strided_positive.
Qed.

Lemma get2_strided (m : nat) (a : array2 A) (i j : nat) :
  get2 (List.map (take_every (S m) 0) (take_every (S m) 0 a)) i j
  = get2 a (i * S m) (j * S m).
Proof.
  unfold get2. rewrite nth_error_map, nth_error_take_every. simpl.
  destruct (nth_error a (i * S m)) as [row|]; simpl; [|reflexivity].
  now rewrite nth_error_take_every.
Qed.

Lemma shape_strided (m : nat) (a : array2 A) (n0 n1 : nat) :
  has_shape2 a n0 n1 ->
  has_shape2 (List.map (take_every (S m) 0) (take_every (S m) 0 a))
             ((n0 + m) / S m) ((n1 + m) / S m).
Proof.
  intros [Hrows Hcols]. split.
  - rewrite length_map, length_take_every, Hrows, Nat.sub_0_r. reflexivity.
  - apply List.Forall_forall. intros row Hrow.
    apply in_map_iff in Hrow as (row' & <- & Hin).
    rewrite length_take_every, Nat.sub_0_r. f_equal. f_equal.
    rewrite List.Forall_forall in Hcols. apply Hcols.
    apply In_nth_error in Hin as [k Hk]. rewrite nth_error_take_every in Hk.
    now apply nth_error_In in Hk.
Qed.

End Sampling2Facts.

Section ProductFacts.
Context {F : Type}.

Lemma broadcast_same_length {X Y Z : Type} (f : X -> Y -> option Z) (g : X -> Y -> Z)
      (xs : list X) (ys : list Y) :
  length xs = length ys ->
  (forall x y, In x xs -> In y ys -> f x y = Some (g x y)) ->
  broadcast f xs ys = Some (zip_with g xs ys).
Proof.
  intros Hlen Hf. unfold broadcast.
  destruct (decide (length xs = length ys)) as [_|Hne]; [|contradiction].
  clear Hlen. revert ys Hf. induction xs as [|x xs IH]; intros [|y ys] Hf; try reflexivity.
  simpl. rewrite Hf by (now left). simpl.
  rewrite IH; [reflexivity|]. intros x' y' Hx Hy. apply Hf; now right.
Qed.

Lemma elementwise2_same_shape (op : F -> F -> F) (a b : array2 F) (n0 n1 : nat) :
  has_shape2 a n0 n1 -> has_shape2 b n0 n1 ->
  elementwise2 op a b = Some (zip_with (zip_with op) a b).
Proof.
  intros [Ha Hra] [Hb Hrb]. unfold elementwise2.
  apply broadcast_same_length; [congruence|].
  intros ra rb Hin_a Hin_b.
  rewrite List.Forall_forall in Hra, Hrb.
  apply broadcast_same_length; [|reflexivity].
  rewrite (Hra ra Hin_a), (Hrb rb Hin_b). reflexivity.
Qed.

Lemma nth_error_zip_with {X Y Z : Type} (f : X -> Y -> Z) (xs : list X) (ys : list Y) (i : nat) :
  nth_error (zip_with f xs ys) i
  = match nth_error xs i, nth_error ys i with
    | Some x, Some y => Some (f x y)
    | _, _ => None
    end.
Proof.
  revert ys i. induction xs as [|x xs IH]; intros [|y ys] [|i]; simpl; try reflexivity.
  - now destruct (nth_error xs i).
  - apply IH.
Qed.

Lemma get2_zip_with (op : F -> F -> F) (a b : array2 F) (i j : nat) :
  get2 (zip_with (zip_with op) a b) i j
  = match get2 a i j, get2 b i j with
    | Some u, Some v => Some (op u v)
    | _, _ => None
    end.
Proof.
  unfold get2. rewrite nth_error_zip_with.
  destruct (nth_error a i) as [ra|], (nth_error b i) as [rb|]; try reflexivity.
  - apply nth_error_zip_with.
  - now destruct (nth_error ra j).
Qed.

End ProductFacts.

(** X11.  For four arrays of one shape (n, m), the coarse image of line 670 is well
    formed and shows the fine image at every 32nd point: the three arguments
    have the shape (ceil(n/32), ceil(m/32)), and their entries (i, j) are
    x[32i, 32j], y[32i, 32j] and z[32i, 32j] * atten[32i, 32j]. *)
Theorem coarse_image_samples_every_32nd_point {F : Type} {NP : NumPy F}
    (x y z atten : array2 F) (n m : nat) :
  has_shape2 x n m -> has_shape2 y n m -> has_shape2 z n m -> has_shape2 atten n m ->
  exists xs ys ps,
    coarse_arguments x y z atten = Some (xs, ys, ps) /\
    has_shape2 xs ((n + 31) / 32) ((m + 31) / 32) /\
    has_shape2 ys ((n + 31) / 32) ((m + 31) / 32) /\
    has_shape2 ps ((n + 31) / 32) ((m + 31) / 32) /\
    forall i j,
      get2 xs i j = get2 x (i * 32) (j * 32) /\
      get2 ys i j = get2 y (i * 32) (j * 32) /\
      get2 ps i j = match get2 z (i * 32) (j * 32), get2 atten (i * 32) (j * 32) with
                    | Some u, Some v => Some (f_mul u v)
                    | _, _ => None
                    end.
Proof.
  intros Hx Hy Hz Hatten.
  set (coarse := fun a : array2 F => List.map (take_every 32 0) (take_every 32 0 a)).
  exists (coarse x), (coarse y), (coarse (zip_with (zip_with f_mul) z atten)).
  split.
  - unfold coarse_arguments.
    rewrite !strided2_positive, (elementwise2_same_shape f_mul z atten n m Hz Hatten).
    rewrite strided2_positive. reflexivity.
  - split; [exact (shape_strided 31 x n m Hx)|].
    split; [exact (shape_strided 31 y n m Hy)|].
    split.
    + apply (shape_strided 31). destruct Hz as [Hzr Hzc], Hatten as [Har Hac]. split.
      * rewrite length_zip_with. lia.
      * apply List.Forall_forall. intros row Hrow.
        apply In_nth_error in Hrow as [k Hk]. rewrite nth_error_zip_with in Hk.
        destruct (nth_error z k) as [rz|] eqn:Ez; [|discriminate].
        destruct (nth_error atten k) as [ra|] eqn:Ea; [|discriminate].
        injection Hk as <-. rewrite length_zip_with.
        rewrite List.Forall_forall in Hzc, Hac.
        rewrite (Hzc rz (nth_error_In _ _ Ez)), (Hac ra (nth_error_In _ _ Ea)). lia.
    + intros i j. unfold coarse. rewrite !(get2_strided 31).
      split; [reflexivity|]. split; [reflexivity|]. apply get2_zip_with.
Qed.

(** One row of 33 points, 0 .. 32. *)
Definition ramp : array2 R := [List.map INR (seq 0 33)].

Lemma coarse_image_samples_every_32nd_point_witness :
  exists xs ys ps,
    coarse_arguments ramp ramp ramp ramp = Some (xs, ys, ps) /\
    has_shape2 xs 1 2 /\
    has_shape2 ys 1 2 /\
    has_shape2 ps 1 2 /\
    forall i j,
      get2 xs i j = get2 ramp (i * 32) (j * 32) /\
      get2 ys i j = get2 ramp (i * 32) (j * 32) /\
      get2 ps i j = match get2 ramp (i * 32) (j * 32), get2 ramp (i * 32) (j * 32) with
                    | Some u, Some v => Some (f_mul u v)
                    | _, _ => None
                    end.
Proof.
  assert (Hramp : has_shape2 ramp 1 33) by (split; [reflexivity | repeat constructor]).
  exact (@coarse_image_samples_every_32nd_point R real_numpy ramp ramp ramp ramp 1 33
           Hramp Hramp Hramp Hramp).
Defined.

(** ** The view of a concrete image *)


